(** * Persistent update-state store of mender-mcu (POSIX storage backend)

    A shallow embedding of [mender-storage.c] (POSIX platform): the C
    functions are state-passing Rocq functions over a [world] made of the
    files of the storage directory, the C heap, and a script of what the
    platform does at the next fallible library calls.  Output parameters of
    the C functions are modelled by passing in the value the caller's
    variable holds before the call and returning the value it holds after. *)

From Stdlib Require Import ZArith Lia.
From Stdlib Require Import Strings.Byte.
From stdpp Require Import base option list gmap strings pretty.

(** ** Bytes and C strings *)

Abbreviation byte := Byte.byte.

Definition NUL : byte := Byte.x00.

Definition is_NUL (b : byte) : bool := Byte.eqb b NUL.

(** A [const char *] argument is represented by the bytes found at the
    pointer.  [strlen] counts the bytes before the first NUL (the end of the
    list stands for the terminator when the list holds none). *)
Fixpoint strlen (s : list byte) : nat :=
  match s with
  | [] => 0
  | b :: s' => if is_NUL b then 0 else S (strlen s')
  end.

(** The characters of a C string: what lies before the terminator. *)
Definition c_chars (s : list byte) : list byte := take (strlen s) s.

(** String literal of the C source, with its terminator. *)
Definition c_literal (s : string) : list byte :=
  String.list_byte_of_string s ++ [NUL].

(** Storing [bs] at the start of a buffer holding [old]. *)
Definition overwrite (bs old : list byte) : list byte :=
  bs ++ drop (length bs) old.

(** ** Error codes ([mender_err_t])

    The enumeration is declared in a header outside this file; these are the
    codes the sources use. *)

Inductive mender_err_t :=
  | MENDER_OK
  | MENDER_FAIL
  | MENDER_NOT_FOUND
  | MENDER_NOT_IMPLEMENTED.

Definition mender_err_eqb (a b : mender_err_t) : bool :=
  match a, b with
  | MENDER_OK, MENDER_OK
  | MENDER_FAIL, MENDER_FAIL
  | MENDER_NOT_FOUND, MENDER_NOT_FOUND
  | MENDER_NOT_IMPLEMENTED, MENDER_NOT_IMPLEMENTED => true
  | _, _ => false
  end.

(** ** The platform *)

(** Pointers into the C heap. *)
Inductive ptr :=
  | NULL
  | Ptr (b : positive).

(** What the platform does at a fallible call: it completes ([Done]), or it
    gives up after transferring [n] bytes ([Cut n]); a call that transfers
    nothing ([fopen] for writing, [malloc], [calloc], [strdup], [unlink])
    simply fails on [Cut].  A script that has run out stands for a platform
    that completes every call. *)
Inductive outcome :=
  | Done
  | Cut (n : nat).

Record world := World {
  w_files : gmap string (list byte);    (* the items of the storage directory *)
  w_heap : gmap positive (list byte);   (* live heap blocks *)
  w_script : list outcome;              (* outcomes of the next fallible calls *)
  w_garbage : byte                      (* what uninitialised memory holds *)
}.

Definition set_files (fs : gmap string (list byte)) (w : world) : world :=
  World fs (w_heap w) (w_script w) (w_garbage w).

Definition set_heap (h : gmap positive (list byte)) (w : world) : world :=
  World (w_files w) h (w_script w) (w_garbage w).

Definition set_script (s : list outcome) (w : world) : world :=
  World (w_files w) (w_heap w) s (w_garbage w).

(** The platform never fails from here on. *)
Definition calm (w : world) : Prop := Forall (eq Done) (w_script w).

(** ** State monad over the world *)

Definition M (A : Type) : Type := world → A * world.

Definition ret {A} (a : A) : M A := λ w, (a, w).

Definition bind {A B} (m : M A) (k : A → M B) : M B :=
  λ w, let (a, w') := m w in k a w'.

Notation "'let*' x ':=' c 'in' k" := (bind c (λ x, k))
  (at level 10, x pattern, c at level 100, k at level 200).

Notation "c '>>' k" := (bind c (λ _, k))
  (at level 100, k at level 200, right associativity).

(** Running a call in a world: what it returns and the world it leaves. *)
Definition result {A} (m : M A) (w : world) : A := fst (m w).

Definition after {A} (m : M A) (w : world) : world := snd (m w).

(** The outcome of the next fallible call. *)
Definition next_outcome : M outcome := λ w,
  (hd Done (w_script w), set_script (tl (w_script w)) w).

(** ** The C library *)

(** An open stream: the item it is bound to and the file position. *)
Record FILE := File { f_path : string; f_pos : nat }.

(** [fopen(path, "rb")]: fails when the item does not exist.  An item that
    exists can be opened: an open that fails for another reason, which the
    storage functions do not tell apart from absence, is not represented. *)
Definition fopen_rb (path : string) : M (option FILE) := λ w,
  match w_files w !! path with
  | None => (None, w)
  | Some _ => (Some (File path 0), w)
  end.

(** [fopen(path, "wb")]: creates the item or truncates it to length zero. *)
Definition fopen_wb (path : string) : M (option FILE) :=
  let* o := next_outcome in
  match o with
  | Cut _ => ret None
  | Done => λ w, (Some (File path 0), set_files (<[path := []]> (w_files w)) w)
  end.

Definition file_size (f : FILE) : M nat := λ w,
  (length (default [] (w_files w !! f_path f)), w).

(** [fseek(f, 0, SEEK_END)] and [fseek(f, 0, SEEK_SET)]. *)
Definition fseek_end (f : FILE) : M FILE :=
  let* n := file_size f in ret (File (f_path f) n).

Definition fseek_set (f : FILE) : M FILE := ret (File (f_path f) 0).

(** [ftell(f)] on a stream that was opened successfully: the position, which
    is the size of the item after [fseek_end]; an [ftell] that fails is not
    represented. *)
Definition ftell (f : FILE) : M Z := ret (Z.of_nat (f_pos f)).

Definition fclose (f : FILE) : M unit := ret tt.

(** Number of bytes a transfer of [want] bytes moves. *)
Definition transferred (o : outcome) (want : nat) : nat :=
  match o with
  | Done => want
  | Cut n => min n want
  end.

(** [fwrite(data, size, nmemb, f)]: the bytes go to the end of the item (the
    stream was opened by [fopen_wb] and is only written sequentially).
    Returns the number of complete members written. *)
Definition fwrite (data : list byte) (size nmemb : nat) (f : FILE) : M nat :=
  let* o := next_outcome in
  let bytes := take (transferred o (size * nmemb)) data in
  λ w,
    let old := default [] (w_files w !! f_path f) in
    (length bytes `div` size,
     set_files (<[f_path f := old ++ bytes]> (w_files w)) w).

(** [fread(_, size, nmemb, f)]: returns the bytes moved into the destination,
    the number of complete members read, and the advanced stream. *)
Definition fread (size nmemb : nat) (f : FILE) : M (list byte * nat * FILE) :=
  let* o := next_outcome in
  λ w,
    let content := default [] (w_files w !! f_path f) in
    let bytes := take (transferred o (size * nmemb)) (drop (f_pos f) content) in
    (bytes, length bytes `div` size, File (f_path f) (f_pos f + length bytes), w).

(** [unlink(path)]: 0 on success, -1 otherwise. *)
Definition unlink (path : string) : M Z :=
  let* o := next_outcome in
  λ w,
    match o, w_files w !! path with
    | Done, Some _ => (0%Z, set_files (delete path (w_files w)) w)
    | _, _ => ((-1)%Z, w)
    end.

(** Allocation of a block with the given contents. *)
Definition alloc (contents : list byte) : M ptr :=
  let* o := next_outcome in
  match o with
  | Cut _ => ret NULL
  | Done => λ w,
      let b := fresh (dom (w_heap w)) in
      (Ptr b, set_heap (<[b := contents]> (w_heap w)) w)
  end.

Definition malloc (n : nat) : M ptr := λ w, alloc (replicate n (w_garbage w)) w.

Definition calloc (nmemb size : nat) : M ptr := alloc (replicate (nmemb * size) NUL).

Definition strdup (s : list byte) : M ptr := alloc (c_chars s ++ [NUL]).

Definition free (p : ptr) : M unit := λ w,
  match p with
  | NULL => (tt, w)
  | Ptr b => (tt, set_heap (delete b (w_heap w)) w)
  end.

(** [p[i] = c] *)
Definition store_byte (p : ptr) (i : nat) (c : byte) : M unit := λ w,
  match p with
  | NULL => (tt, w)
  | Ptr b => (tt, set_heap (alter (λ blk, <[i := c]> blk) b (w_heap w)) w)
  end.

(** Bytes moved to the start of the block at [p]. *)
Definition store_bytes (p : ptr) (bs : list byte) : M unit := λ w,
  match p with
  | NULL => (tt, w)
  | Ptr b => (tt, set_heap (alter (overwrite bs) b (w_heap w)) w)
  end.

(** The C string a pointer refers to, when it points to a live block that
    holds a terminator. *)
Definition string_at (w : world) (p : ptr) : option (list byte) :=
  match p with
  | NULL => None
  | Ptr b =>
      blk ← w_heap w !! b;
      if decide (strlen blk < length blk) then Some (c_chars blk) else None
  end.

(** A pointer that is neither null nor the address of a live block. *)
Definition dangling (w : world) (p : ptr) : Prop :=
  match p with
  | NULL => False
  | Ptr b => w_heap w !! b = None
  end.

(** ** mender-storage.c *)

Definition CONFIG_MENDER_STORAGE_PATH : string := "".

Definition MENDER_STORAGE_NVS_PRIVATE_KEY : string :=
  CONFIG_MENDER_STORAGE_PATH +:+ "key.der".
Definition MENDER_STORAGE_NVS_PUBLIC_KEY : string :=
  CONFIG_MENDER_STORAGE_PATH +:+ "pubkey.der".
Definition MENDER_STORAGE_NVS_DEPLOYMENT_DATA : string :=
  CONFIG_MENDER_STORAGE_PATH +:+ "deployment-data.json".
Definition MENDER_STORAGE_NVS_UPDATE_STATE : string :=
  CONFIG_MENDER_STORAGE_PATH +:+ "um_state.dat".
Definition MENDER_STORAGE_NVS_PROVIDES : string :=
  CONFIG_MENDER_STORAGE_PATH +:+ "provides.txt".
Definition MENDER_STORAGE_NVS_ARTICACT_NAME : string :=
  CONFIG_MENDER_STORAGE_PATH +:+ "artifact_name.txt".

Definition mender_storage_init : M mender_err_t := ret MENDER_OK.

Definition mender_storage_write_file
    (file_path : string) (data : list byte) (data_length : nat) : M mender_err_t :=
  let* f := fopen_wb file_path in
  match f with
  | None => ret MENDER_FAIL
  | Some f =>
      let* n := fwrite data 1 data_length f in
      if negb (n =? data_length) then
        fclose f >> ret MENDER_FAIL
      else
        fclose f >> ret MENDER_OK
  end.

(** [data] and [data_length] are what the caller's [*data] and
    [*data_length] hold before the call; the result carries what they hold
    after it. *)
Definition mender_storage_read_file
    (file_path : string) (data : ptr) (data_length : nat)
    : M (mender_err_t * ptr * nat) :=
  let* f := fopen_rb file_path in
  match f with
  | None => ret (MENDER_NOT_FOUND, data, data_length)
  | Some f =>
      let* f := fseek_end f in
      let* length := ftell f in
      if (length <=? 0)%Z then
        fclose f >> ret (MENDER_NOT_FOUND, data, data_length)
      else
        let data_length := Z.to_nat length in
        let* f := fseek_set f in
        let* data := malloc (data_length + 1) in
        match data with
        | NULL => fclose f >> ret (MENDER_FAIL, data, data_length)
        | Ptr _ =>
            (* Set last byte to \0 *)
            store_byte data data_length NUL >>
            let* (bytes, n, f) := fread 1 data_length f in
            store_bytes data bytes >>
            if negb (n =? data_length) then
              free data >> fclose f >> ret (MENDER_FAIL, data, data_length)
            else
              fclose f >> ret (MENDER_OK, data, data_length)
        end
  end.

(** A key is passed as the bytes at the pointer and the length to store. *)
Definition mender_storage_set_authentication_keys
    (private_key : list byte) (private_key_length : nat)
    (public_key : list byte) (public_key_length : nat) : M mender_err_t :=
  let* r := mender_storage_write_file MENDER_STORAGE_NVS_PRIVATE_KEY
              private_key private_key_length in
  if negb (mender_err_eqb MENDER_OK r) then ret MENDER_FAIL
  else
    let* r := mender_storage_write_file MENDER_STORAGE_NVS_PUBLIC_KEY
                public_key public_key_length in
    if negb (mender_err_eqb MENDER_OK r) then ret MENDER_FAIL
    else ret MENDER_OK.

(** The four output parameters of the caller, before and after. *)
Record key_outputs := KeyOutputs {
  private_key : ptr;
  private_key_length : nat;
  public_key : ptr;
  public_key_length : nat
}.

Definition mender_storage_get_authentication_keys (out : key_outputs)
    : M (mender_err_t * key_outputs) :=
  let* (r, priv, priv_len) :=
    mender_storage_read_file MENDER_STORAGE_NVS_PRIVATE_KEY
      (private_key out) (private_key_length out) in
  if negb (mender_err_eqb MENDER_OK r) then
    ret (MENDER_NOT_FOUND,
         KeyOutputs priv priv_len (public_key out) (public_key_length out))
  else
    let* (r, pub, pub_len) :=
      mender_storage_read_file MENDER_STORAGE_NVS_PUBLIC_KEY
        (public_key out) (public_key_length out) in
    if negb (mender_err_eqb MENDER_OK r) then
      free priv >>
      ret (MENDER_NOT_FOUND, KeyOutputs NULL 0 pub pub_len)
    else
      ret (MENDER_OK, KeyOutputs priv priv_len pub pub_len).

Definition mender_storage_delete_authentication_keys : M mender_err_t :=
  (* Erase keys; the second unlink is not attempted when the first fails *)
  let* r1 := unlink MENDER_STORAGE_NVS_PRIVATE_KEY in
  if negb (r1 =? 0)%Z then ret MENDER_FAIL
  else
    let* r2 := unlink MENDER_STORAGE_NVS_PUBLIC_KEY in
    if negb (r2 =? 0)%Z then ret MENDER_FAIL
    else ret MENDER_OK.

Definition mender_storage_set_deployment_data (deployment_data : list byte)
    : M mender_err_t :=
  let deployment_data_length := strlen deployment_data in
  let* r := mender_storage_write_file MENDER_STORAGE_NVS_DEPLOYMENT_DATA
              deployment_data deployment_data_length in
  if negb (mender_err_eqb MENDER_OK r) then ret MENDER_FAIL
  else ret MENDER_OK.

Definition mender_storage_get_deployment_data (deployment_data : ptr)
    : M (mender_err_t * ptr) :=
  (* deployment_data_length is an uninitialised local; its value is never read *)
  let* (r, deployment_data, _) :=
    mender_storage_read_file MENDER_STORAGE_NVS_DEPLOYMENT_DATA deployment_data 0 in
  if negb (mender_err_eqb MENDER_OK r) then ret (MENDER_NOT_FOUND, deployment_data)
  else ret (MENDER_OK, deployment_data).

Definition mender_storage_delete_deployment_data : M mender_err_t :=
  let* r := unlink MENDER_STORAGE_NVS_DEPLOYMENT_DATA in
  if negb (r =? 0)%Z then ret MENDER_FAIL else ret MENDER_OK.

Definition mender_storage_set_artifact_name (artifact_name : list byte)
    : M mender_err_t :=
  let artifact_name_str_length := strlen artifact_name in
  let* r := mender_storage_write_file MENDER_STORAGE_NVS_ARTICACT_NAME
              artifact_name artifact_name_str_length in
  if negb (mender_err_eqb MENDER_OK r) then ret MENDER_FAIL
  else ret MENDER_OK.

Definition mender_storage_get_artifact_name (artifact_name : ptr)
    : M (mender_err_t * ptr) :=
  let* (ret_, artifact_name, _) :=
    mender_storage_read_file MENDER_STORAGE_NVS_ARTICACT_NAME artifact_name 0 in
  if negb (mender_err_eqb MENDER_OK ret_) then
    if mender_err_eqb MENDER_NOT_FOUND ret_ then
      let* artifact_name := strdup (c_literal "unknown") in
      ret (MENDER_OK, artifact_name)
    else
      ret (ret_, artifact_name)
  else
    ret (ret_, artifact_name).

Definition mender_storage_exit : M mender_err_t := ret MENDER_OK.

(** *** The update-state record

    [mender_update_state_t] is declared outside this file; its size is a
    parameter, and a state value is handled through its object
    representation, the [sizeof_state] bytes that [fwrite] and [fread] move. *)
Section UpdateState.

Variable sizeof_state : nat.

Definition mender_storage_save_update_state
    (state : list byte) (artifact_type : list byte) : M mender_err_t :=
  let* f := fopen_wb MENDER_STORAGE_NVS_UPDATE_STATE in
  match f with
  | None => ret MENDER_FAIL
  | Some f =>
      let* n := fwrite state 1 sizeof_state f in
      if negb (n =? sizeof_state) then
        fclose f >> ret MENDER_FAIL
      else
        let artifact_type_len := strlen artifact_type in
        let* n := fwrite artifact_type 1 artifact_type_len f in
        if negb (n =? artifact_type_len) then
          fclose f >> ret MENDER_FAIL
        else
          fclose f >> ret MENDER_OK
  end.

(** [state] and [artifact_type] are what the caller's [*state] and
    [*artifact_type] hold before the call; the result carries what they hold
    after it. *)
Definition mender_storage_get_update_state
    (state : list byte) (artifact_type : ptr)
    : M (mender_err_t * list byte * ptr) :=
  let* f := fopen_rb MENDER_STORAGE_NVS_UPDATE_STATE in
  match f with
  | None => ret (MENDER_NOT_FOUND, state, artifact_type)
  | Some f =>
      let* f := fseek_end f in
      let* pos := ftell f in
      let length := Z.to_nat pos in
      if length <=? 0 then
        fclose f >> ret (MENDER_NOT_FOUND, state, artifact_type)
      else if length <? sizeof_state + 2 then
        fclose f >> ret (MENDER_FAIL, state, artifact_type)
      else
        let* f := fseek_set f in
        let* (bytes, n_read, f) := fread sizeof_state 1 f in
        let state := overwrite bytes state in
        if n_read <? 1 then
          fclose f >> ret (MENDER_FAIL, state, artifact_type)
        else
          let* artifact_type := calloc (length - sizeof_state + 1) 1 in
          match artifact_type with
          | NULL => fclose f >> ret (MENDER_FAIL, state, artifact_type)
          | Ptr _ =>
              let* (bytes, n_read, f) := fread 1 (length - sizeof_state) f in
              store_bytes artifact_type bytes >>
              if n_read <? length - sizeof_state then
                free artifact_type >>
                fclose f >> ret (MENDER_FAIL, state, artifact_type)
              else
                fclose f >> ret (MENDER_OK, state, artifact_type)
          end
  end.

Definition mender_storage_delete_update_state : M mender_err_t :=
  let* r := unlink MENDER_STORAGE_NVS_UPDATE_STATE in
  if negb (r =? 0)%Z then ret MENDER_FAIL else ret MENDER_OK.

End UpdateState.

(** *** Artifact provides

    The text codec [mender_utils_string_to_key_value_list] and the list type
    are declared outside this file and are parameters here.  The codec
    receives the bytes at [provides_str] and what [*provides] holds, and
    yields its return code and what [*provides] holds afterwards.  The list
    is an abstract value: the memory the codec allocates for it is not part
    of the heap modelled here. *)
Section Provides.

Variable mender_key_value_list_t : Type.
Variable mender_utils_string_to_key_value_list :
  list byte → mender_key_value_list_t → mender_err_t * mender_key_value_list_t.

(** The bytes of the block [p] points to. *)
Definition load (p : ptr) : M (list byte) := λ w,
  match p with
  | NULL => ([], w)
  | Ptr b => (default [] (w_heap w !! b), w)
  end.

Definition mender_storage_get_provides (provides : mender_key_value_list_t)
    : M (mender_err_t * mender_key_value_list_t) :=
  let provides_str := NULL in
  let* (r, provides_str, _) :=
    mender_storage_read_file MENDER_STORAGE_NVS_PROVIDES provides_str 0 in
  if negb (mender_err_eqb MENDER_OK r) then ret (MENDER_NOT_FOUND, provides)
  else
    let* text := load provides_str in
    let (r, provides) := mender_utils_string_to_key_value_list text provides in
    if negb (mender_err_eqb MENDER_OK r) then
      free provides_str >> ret (MENDER_FAIL, provides)
    else
      free provides_str >> ret (MENDER_OK, provides).

Definition mender_storage_delete_provides : M mender_err_t :=
  let* r := unlink MENDER_STORAGE_NVS_PROVIDES in
  if negb (r =? 0)%Z then ret MENDER_FAIL else ret MENDER_OK.

End Provides.

(** *** Storing the provides

    The text codec [mender_utils_key_value_list_to_string] is declared
    outside this file and is a parameter here: it receives the list and what
    [*provides_str] holds, may allocate, and yields its return code and what
    [*provides_str] holds afterwards. *)
Section SetProvides.

Variable mender_key_value_list_t : Type.
Variable mender_utils_key_value_list_to_string :
  mender_key_value_list_t → ptr → M (mender_err_t * ptr).

Definition mender_storage_set_provides (provides : mender_key_value_list_t)
    : M mender_err_t :=
  let provides_str := NULL in
  let* (r, provides_str) :=
    mender_utils_key_value_list_to_string provides provides_str in
  if negb (mender_err_eqb MENDER_OK r) then ret MENDER_FAIL
  else
    let* text := load provides_str in
    let provides_str_length := strlen text in
    let* r := mender_storage_write_file MENDER_STORAGE_NVS_PROVIDES
                text provides_str_length in
    if negb (mender_err_eqb MENDER_OK r) then
      free provides_str >> ret MENDER_FAIL
    else
      free provides_str >> ret MENDER_OK.

End SetProvides.

(** ** tests/src/main.c: the user-provided key

    [int] has 32 bits and [size_t] 64, as on the platform of the POSIX test
    application.  [fread] returns a [size_t] that the code stores in an
    [int] and then compares with the [size_t] length. *)

Definition int_of_size_t (n : Z) : Z :=
  ((n + 2 ^ 31) mod 2 ^ 32 - 2 ^ 31)%Z.

Definition size_t_of_int (z : Z) : Z := (z mod 2 ^ 64)%Z.

(** [key_path] is the global of that name, [None] for a null pointer;
    [user_provided_key] and [user_provided_key_length] are what the caller's
    variables hold before the call, and the result carries what they hold
    after it. *)
Definition get_user_provided_keys_cb
    (key_path : option string)
    (user_provided_key : ptr) (user_provided_key_length : nat)
    : M (mender_err_t * ptr * nat) :=
  match key_path with
  | None => ret (MENDER_OK, user_provided_key, user_provided_key_length)
  | Some key_path =>
      let* file := fopen_rb key_path in
      match file with
      | None => ret (MENDER_FAIL, user_provided_key, user_provided_key_length)
      | Some file =>
          let* file := fseek_end file in
          let* pos := ftell file in
          let length := Z.to_nat pos in
          let* file := fseek_set file in
          let* user_provided_key := malloc (length + 1) in
          match user_provided_key with
          | NULL =>
              fclose file >>
              ret (MENDER_FAIL, user_provided_key, user_provided_key_length)
          | Ptr _ =>
              let* (bytes, n, file) := fread 1 length file in
              store_bytes user_provided_key bytes >>
              let ret_ := int_of_size_t (Z.of_nat n) in
              if negb (size_t_of_int ret_ =? Z.of_nat length)%Z then
                fclose file >>
                ret (MENDER_FAIL, user_provided_key, user_provided_key_length)
              else
                fclose file >>
                ret (MENDER_OK, user_provided_key, length + 1)
          end
      end
  end.

(** ** mender-log.c

    The call prints to the standard output; the function returns its code
    and the bytes it prints.  The format and its arguments are represented
    by what they expand to: [inr msg] for the text, [inl code] for an
    expansion that fails with the negative [code].  The level constants are
    declared in a header outside this file and are parameters. *)

Definition LOG_MESSAGE_MAX_SIZE_BYTES : nat := 256.

(** Conversion of an argument to [uint8_t] and to [int] (32 bits). *)
Definition uint8_t_of (z : Z) : Z := (z mod 2 ^ 8)%Z.

Definition int_of (z : Z) : Z := ((z + 2 ^ 31) mod 2 ^ 32 - 2 ^ 31)%Z.

(** [vsnprintf(buf, size, format, args)]: at most [size - 1] bytes of the
    expansion and a NUL go to [buf]; the length of the whole expansion is
    returned, as an [int]; an expansion too long for an [int] fails. *)
Definition vsnprintf (buf : list byte) (size : nat) (expansion : Z + list byte)
    : Z * list byte :=
  match expansion with
  | inl code => (int_of code, buf)
  | inr msg =>
      if (Z.of_nat (length msg) <? 2 ^ 31)%Z then
        (Z.of_nat (length msg), overwrite (take (size - 1) msg ++ [NUL]) buf)
      else ((-1)%Z, buf)
  end.

(** [memset(&buf[start], c, n)] *)
Definition memset (buf : list byte) (start : nat) (c : byte) (n : nat)
    : list byte :=
  take start buf ++ replicate n c ++ drop (start + n) buf.

(** What [%d] prints. *)
Definition decimal (z : Z) : list byte := String.list_byte_of_string (pretty z).

Definition text (s : string) : list byte := String.list_byte_of_string s.

Definition newline : list byte := [Byte.x0a].

Section Log.

Variables MENDER_LOG_LEVEL_ERR MENDER_LOG_LEVEL_WRN : Z.
Variables MENDER_LOG_LEVEL_INF MENDER_LOG_LEVEL_DBG : Z.

(** [level] and [line] are the arguments of the call, converted to the
    parameter types [uint8_t] and [int]; [garbage] is what the uninitialised
    [log_buff] holds. *)
Definition mender_log_print
    (level : Z) (filename function : list byte) (line : Z)
    (expansion : Z + list byte) (garbage : byte) : mender_err_t * list byte :=
  let level := uint8_t_of level in
  let line := int_of line in
  let log_buff := replicate LOG_MESSAGE_MAX_SIZE_BYTES garbage in
  let (ret_, log_buff) :=
    vsnprintf log_buff LOG_MESSAGE_MAX_SIZE_BYTES expansion in
  if (ret_ <? 0)%Z then
    (MENDER_FAIL,
     text "error: logger error: log message formatting failed: " ++ decimal ret_)
  else
    let log_buff :=
      if (Z.of_nat LOG_MESSAGE_MAX_SIZE_BYTES <=? ret_)%Z then
        (* Log message is too long; add ... at the end *)
        memset log_buff (LOG_MESSAGE_MAX_SIZE_BYTES - 4) Byte.x2e 3
      else log_buff in
    (* Switch depending log level *)
    let printed :=
      if (level =? MENDER_LOG_LEVEL_ERR)%Z then
        text "error: " ++ c_chars log_buff ++ newline
      else if (level =? MENDER_LOG_LEVEL_WRN)%Z then
        text "warning: " ++ c_chars log_buff ++ newline
      else if (level =? MENDER_LOG_LEVEL_INF)%Z then
        text "info: " ++ c_chars log_buff ++ newline
      else if (level =? MENDER_LOG_LEVEL_DBG)%Z then
        text "debug [" ++ c_chars function ++ text " (" ++ decimal line
          ++ text ")]: " ++ c_chars log_buff ++ newline
      else [] in
    (MENDER_OK, printed).

End Log.

(** What is shown of a message: all of it when it fits the buffer, else its
    first 252 bytes and three dots. *)
Definition shown (msg : list byte) : list byte :=
  if length msg <? LOG_MESSAGE_MAX_SIZE_BYTES then msg
  else take 252 msg ++ text "...".

(** The buffer at [p] is one byte longer than [c], starts with the bytes of
    [c], and holds NUL at index [length c]. *)
Definition buffer_of (w : world) (p : ptr) (c : list byte) : Prop :=
  ∃ b blk, p = Ptr b ∧ w_heap w !! b = Some blk ∧
           length blk = length c + 1 ∧ take (length c) blk = c ∧
           blk !! length c = Some NUL.

(** Whether the platform lets the write of [n] bytes to an item through: the
    open at the head of the script completes and the write that follows
    moves all [n] bytes. *)
Definition write_completes (w : world) (n : nat) : bool :=
  match hd Done (w_script w) with
  | Cut _ => false
  | Done => transferred (hd Done (tl (w_script w))) n =? n
  end.

(** Whether the platform lets the read of an item of [len] bytes through:
    the allocation at the head of the script completes and the read that
    follows moves all [len] bytes. *)
Definition read_completes (w : world) (len : nat) : bool :=
  match hd Done (w_script w) with
  | Cut _ => false
  | Done => transferred (hd Done (tl (w_script w))) len =? len
  end.

(** ** Sample worlds and values *)

(** An empty storage directory, an empty heap, and a platform that completes
    every call. *)
Definition blank : world := World ∅ ∅ [] Byte.xaa.

(** The world [w] with item [path] holding [content]. *)
Definition with_item (path : string) (content : list byte) (w : world) : world :=
  set_files (<[path := content]> (w_files w)) w.

(** A four-byte state value, and the four zero bytes a caller's variable may
    hold before a call. *)
Definition sample_state : list byte := [Byte.x02; Byte.x00; Byte.x00; Byte.x00].

Definition zero_state : list byte := [Byte.x00; Byte.x00; Byte.x00; Byte.x00].

(** * Properties *)

(** ** C strings *)

Lemma strlen_le s : strlen s ≤ length s.
Proof. induction s as [|b s IH]; simpl; [lia|]. destruct (is_NUL b); simpl; lia. Qed.

Lemma length_c_chars s : length (c_chars s) = strlen s.
Proof. unfold c_chars. rewrite length_take. pose proof (strlen_le s). lia. Qed.

Lemma strlen_terminated s rest : strlen (c_chars s ++ NUL :: rest) = strlen s.
Proof.
  unfold c_chars. induction s as [|b s IH]; simpl; [done|].
  destruct (is_NUL b) eqn:Hb; simpl; [done|]. by rewrite Hb, IH.
Qed.

Lemma c_chars_terminated s rest : c_chars (c_chars s ++ NUL :: rest) = c_chars s.
Proof.
  unfold c_chars at 1. rewrite strlen_terminated.
  rewrite take_app_le by (rewrite length_c_chars; lia).
  apply take_ge. rewrite length_c_chars. lia.
Qed.

Lemma overwrite_all bs old : length old ≤ length bs → overwrite bs old = bs.
Proof. intros H. unfold overwrite. rewrite drop_ge by done. apply app_nil_r. Qed.

(** A buffer of [n + 1] bytes whose last byte was set to NUL and whose first
    [n] bytes were then filled. *)
Lemma overwrite_terminated (c : list byte) (g : byte) :
  overwrite c (<[length c := NUL]> (replicate (length c + 1) g)) = c ++ [NUL].
Proof.
  unfold overwrite. f_equal.
  rewrite replicate_add, insert_app_r_alt by (rewrite length_replicate; lia).
  rewrite length_replicate, Nat.sub_diag, drop_app_length'
    by (rewrite length_replicate; lia).
  done.
Qed.

Lemma overwrite_zeroed (c : list byte) :
  overwrite c (replicate (length c + 1) NUL) = c ++ [NUL].
Proof.
  unfold overwrite. f_equal.
  rewrite replicate_add, drop_app_length' by (rewrite length_replicate; lia).
  done.
Qed.

(** ** The script *)

Lemma calm_tl s : Forall (eq Done) s → Forall (eq Done) (tl s).
Proof. destruct s; [done|]. by inversion 1. Qed.

Lemma calm_tl_hd s : Forall (eq Done) s → hd Done s = Done.
Proof. destruct s; [done|]. by inversion 1. Qed.

(** ** Running the C library calls

    A world is taken apart into its four fields and the calls of a function
    body are run one after the other. *)

Lemma bind_run {A B} (m : M A) (k : A → M B) w a w' :
  m w = (a, w') → bind m k w = k a w'.
Proof. unfold bind. by intros ->. Qed.

Ltac tidy :=
  cbv beta iota; unfold set_files, set_heap, set_script;
  cbn [w_files w_heap w_script w_garbage f_path f_pos negb mender_err_eqb
       fst snd default from_option id].

Ltac step_by tac := erewrite bind_run by tac; tidy.
Ltac mstep := step_by ltac:(reflexivity).

Lemma fopen_rb_absent path fs h s g :
  fs !! path = None →
  fopen_rb path (World fs h s g) = (None, World fs h s g).
Proof. intros H. unfold fopen_rb. simpl. by rewrite H. Qed.

Lemma fopen_rb_present path fs h s g c :
  fs !! path = Some c →
  fopen_rb path (World fs h s g) = (Some (File path 0), World fs h s g).
Proof. intros H. unfold fopen_rb. simpl. by rewrite H. Qed.

Lemma fopen_wb_done path fs h s g :
  hd Done s = Done →
  fopen_wb path (World fs h s g) =
    (Some (File path 0), World (<[path := []]> fs) h (tl s) g).
Proof. intros H. unfold fopen_wb, bind, next_outcome. simpl. by rewrite H. Qed.

Lemma fopen_wb_cut path fs h s g k :
  hd Done s = Cut k →
  fopen_wb path (World fs h s g) = (None, World fs h (tl s) g).
Proof. intros H. unfold fopen_wb, bind, next_outcome. simpl. by rewrite H. Qed.

Lemma fseek_end_present f fs h s g c :
  fs !! f_path f = Some c →
  fseek_end f (World fs h s g) = (File (f_path f) (length c), World fs h s g).
Proof. intros H. unfold fseek_end, file_size, bind, ret. simpl. by rewrite H. Qed.

Lemma fwrite_run data size nmemb f fs h s g :
  fwrite data size nmemb f (World fs h s g) =
    let bytes := take (transferred (hd Done s) (size * nmemb)) data in
    (length bytes `div` size,
     World (<[f_path f := default [] (fs !! f_path f) ++ bytes]> fs) h (tl s) g).
Proof. reflexivity. Qed.

Lemma fread_run size nmemb f fs h s g :
  fread size nmemb f (World fs h s g) =
    let bytes := take (transferred (hd Done s) (size * nmemb))
                   (drop (f_pos f) (default [] (fs !! f_path f))) in
    (bytes, length bytes `div` size, File (f_path f) (f_pos f + length bytes),
     World fs h (tl s) g).
Proof. reflexivity. Qed.

Lemma alloc_done contents fs h s g :
  hd Done s = Done →
  alloc contents (World fs h s g) =
    (Ptr (fresh (dom h)), World fs (<[fresh (dom h) := contents]> h) (tl s) g).
Proof. intros H. unfold alloc, bind, next_outcome, ret. simpl. by rewrite H. Qed.

Lemma alloc_cut contents fs h s g k :
  hd Done s = Cut k →
  alloc contents (World fs h s g) = (NULL, World fs h (tl s) g).
Proof. intros H. unfold alloc, bind, next_outcome, ret. simpl. by rewrite H. Qed.

Lemma fresh_block_free (h : gmap positive (list byte)) : h !! fresh (dom h) = None.
Proof. apply not_elem_of_dom, is_fresh. Qed.

(** A transfer never moves more than was asked for, and a list that holds
    enough bytes yields exactly what was moved. *)
Lemma transferred_le o want : transferred o want ≤ want.
Proof. destruct o; simpl; lia. Qed.

Lemma length_take_transferred o want (l : list byte) :
  want ≤ length l → length (take (transferred o want) l) = transferred o want.
Proof. intros H. rewrite length_take. pose proof (transferred_le o want). lia. Qed.

(** ** The file reader and writer *)

Lemma read_file_absent path d n w :
  w_files w !! path = None →
  mender_storage_read_file path d n w = (MENDER_NOT_FOUND, d, n, w).
Proof.
  intros H. destruct w as [fs h s g]. simpl in H.
  unfold mender_storage_read_file.
  step_by ltac:(by eapply fopen_rb_absent). reflexivity.
Qed.

Lemma read_file_empty path d n w :
  w_files w !! path = Some [] →
  mender_storage_read_file path d n w = (MENDER_NOT_FOUND, d, n, w).
Proof.
  intros H. destruct w as [fs h s g]. simpl in H.
  unfold mender_storage_read_file.
  step_by ltac:(by eapply fopen_rb_present).
  step_by ltac:(by eapply fseek_end_present).
  mstep. rewrite (proj2 (Z.leb_le _ _)) by (simpl; lia). mstep. reflexivity.
Qed.

(** Reading an item that holds [c], not empty: the allocation may fail, the
    read may stop early, and otherwise the buffer holds [c] and a NUL. *)
Lemma read_file_present path d n fs h s g c :
  fs !! path = Some c → c ≠ [] →
  mender_storage_read_file path d n (World fs h s g) =
    match hd Done s with
    | Cut _ => (MENDER_FAIL, NULL, length c, World fs h (tl s) g)
    | Done =>
        let b := fresh (dom h) in
        if decide (transferred (hd Done (tl s)) (length c) = length c) then
          (MENDER_OK, Ptr b, length c,
           World fs (<[b := c ++ [NUL]]> h) (tl (tl s)) g)
        else
          (MENDER_FAIL, Ptr b, length c, World fs h (tl (tl s)) g)
    end.
Proof.
  intros H Hc.
  assert (Hlen : 0 < length c) by (destruct c; [done | simpl; lia]).
  unfold mender_storage_read_file.
  step_by ltac:(by eapply fopen_rb_present).
  step_by ltac:(by eapply fseek_end_present).
  mstep.
  rewrite (proj2 (Z.leb_gt _ _)) by lia. rewrite !Nat2Z.id.
  mstep. unfold malloc. tidy.
  destruct (hd Done s) eqn:Hs1.
  2:{ step_by ltac:(by eapply alloc_cut). mstep. reflexivity. }
  step_by ltac:(by eapply alloc_done).
  mstep. rewrite (bind_run _ _ _ _ _ (fread_run _ _ _ _ _ _ _)). tidy.
  rewrite H. tidy. rewrite drop_0, Nat.mul_1_l, Nat.div_1_r.
  rewrite length_take_transferred by done.
  mstep. rewrite !alter_insert_eq.
  case_decide as Hk.
  - rewrite Hk, Nat.eqb_refl. tidy. mstep.
    rewrite take_ge by done. by rewrite overwrite_terminated.
  - rewrite (proj2 (Nat.eqb_neq _ _)) by done. tidy. mstep. mstep.
    unfold ret. by rewrite delete_insert_id by apply fresh_block_free.
Qed.

Lemma write_file_run path data n fs h s g :
  mender_storage_write_file path data n (World fs h s g) =
    match hd Done s with
    | Cut _ => (MENDER_FAIL, World fs h (tl s) g)
    | Done =>
        let bytes := take (transferred (hd Done (tl s)) n) data in
        (if length bytes =? n then MENDER_OK else MENDER_FAIL,
         World (<[path := bytes]> fs) h (tl (tl s)) g)
    end.
Proof.
  unfold mender_storage_write_file.
  destruct (hd Done s) eqn:Hs1.
  2:{ step_by ltac:(by eapply fopen_wb_cut). reflexivity. }
  step_by ltac:(by eapply fopen_wb_done).
  rewrite (bind_run _ _ _ _ _ (fwrite_run _ _ _ _ _ _ _ _)). tidy.
  rewrite lookup_insert_eq, insert_insert_eq. tidy.
  rewrite Nat.mul_1_l, Nat.div_1_r, app_nil_l.
  destruct (_ =? n); tidy; mstep; reflexivity.
Qed.

(** A write that reports success has stored the first [n] bytes of [data],
    and [data] held that many. *)
Lemma write_file_OK path data n w :
  result (mender_storage_write_file path data n) w = MENDER_OK →
  w_files (after (mender_storage_write_file path data n) w)
    = <[path := take n data]> (w_files w) ∧ n ≤ length data.
Proof.
  destruct w as [fs h s g]. unfold result, after.
  rewrite write_file_run. destruct (hd Done s); [|done]. tidy.
  set (k := transferred _ n).
  destruct (_ =? n) eqn:Hn; [|done]. intros _.
  apply Nat.eqb_eq in Hn. rewrite length_take in Hn.
  assert (k ≤ n) by apply transferred_le.
  assert (k = n) as -> by lia. split; [done | lia].
Qed.

(** A write touches no other item, whether it succeeds or not. *)
Lemma write_file_other path path' data n w :
  path ≠ path' →
  w_files (after (mender_storage_write_file path data n) w) !! path'
    = w_files w !! path'.
Proof.
  intros Hne. destruct w as [fs h s g]. unfold after.
  rewrite write_file_run. destruct (hd Done s); tidy; [|done].
  by rewrite lookup_insert_ne.
Qed.

(** ** The update-state record *)

Lemma get_update_state_absent sz st0 at0 w :
  w_files w !! MENDER_STORAGE_NVS_UPDATE_STATE = None →
  mender_storage_get_update_state sz st0 at0 w = (MENDER_NOT_FOUND, st0, at0, w).
Proof.
  intros H. destruct w as [fs h s g]. simpl in H.
  unfold mender_storage_get_update_state.
  step_by ltac:(by eapply fopen_rb_absent). reflexivity.
Qed.

Lemma get_update_state_empty sz st0 at0 w :
  w_files w !! MENDER_STORAGE_NVS_UPDATE_STATE = Some [] →
  mender_storage_get_update_state sz st0 at0 w = (MENDER_NOT_FOUND, st0, at0, w).
Proof.
  intros H. destruct w as [fs h s g]. simpl in H.
  unfold mender_storage_get_update_state.
  step_by ltac:(by eapply fopen_rb_present).
  step_by ltac:(by eapply fseek_end_present).
  mstep. rewrite Nat2Z.id, (proj2 (Nat.leb_le _ _)) by (simpl; lia).
  mstep. reflexivity.
Qed.

Lemma get_update_state_short sz st0 at0 w c :
  w_files w !! MENDER_STORAGE_NVS_UPDATE_STATE = Some c →
  c ≠ [] → length c < sz + 2 →
  mender_storage_get_update_state sz st0 at0 w = (MENDER_FAIL, st0, at0, w).
Proof.
  intros H Hc Hlen. destruct w as [fs h s g]. simpl in H.
  assert (0 < length c) by (destruct c; [done | simpl; lia]).
  unfold mender_storage_get_update_state.
  step_by ltac:(by eapply fopen_rb_present).
  step_by ltac:(by eapply fseek_end_present).
  mstep. rewrite Nat2Z.id.
  rewrite (proj2 (Nat.leb_gt _ _)), (proj2 (Nat.ltb_lt _ _)) by lia.
  mstep. reflexivity.
Qed.

(** Decoding a record [c] that is long enough: the state value is read into
    the caller's variable first, then the buffer for the artifact type is
    allocated and filled. *)
Lemma get_update_state_decode sz st0 at0 fs h s g c :
  fs !! MENDER_STORAGE_NVS_UPDATE_STATE = Some c →
  sz + 2 ≤ length c →
  mender_storage_get_update_state sz st0 at0 (World fs h s g) =
    let bytes := take (transferred (hd Done s) (sz * 1)) c in
    let state := overwrite bytes st0 in
    if length bytes `div` sz <? 1 then
      (MENDER_FAIL, state, at0, World fs h (tl s) g)
    else
      match hd Done (tl s) with
      | Cut _ => (MENDER_FAIL, state, NULL, World fs h (tl (tl s)) g)
      | Done =>
          let b := fresh (dom h) in
          let rest := take (transferred (hd Done (tl (tl s))) (length c - sz))
                        (drop (length bytes) c) in
          if length rest <? length c - sz then
            (MENDER_FAIL, state, Ptr b, World fs h (tl (tl (tl s))) g)
          else
            (MENDER_OK, state, Ptr b,
             World fs (<[b := rest ++ [NUL]]> h) (tl (tl (tl s))) g)
      end.
Proof.
  intros H Hlen.
  unfold mender_storage_get_update_state.
  step_by ltac:(by eapply fopen_rb_present).
  step_by ltac:(by eapply fseek_end_present).
  mstep. rewrite Nat2Z.id.
  rewrite (proj2 (Nat.leb_gt _ _)), (proj2 (Nat.ltb_ge _ _)) by lia.
  mstep. rewrite (bind_run _ _ _ _ _ (fread_run _ _ _ _ _ _ _)). tidy.
  rewrite H. tidy. rewrite drop_0.
  destruct (_ <? 1); tidy.
  { mstep. reflexivity. }
  unfold calloc.
  destruct (hd Done (tl s)) eqn:Hs2.
  2:{ step_by ltac:(by eapply alloc_cut). mstep. reflexivity. }
  step_by ltac:(by eapply alloc_done).
  rewrite (bind_run _ _ _ _ _ (fread_run _ _ _ _ _ _ _)). tidy.
  rewrite H. tidy. rewrite !Nat.mul_1_l, Nat.div_1_r.
  rewrite (Nat.mul_1_r (_ + 1)).
  mstep. rewrite alter_insert_eq.
  set (rest := take _ (drop _ c)).
  destruct (length rest <? length c - sz) eqn:Hrest; tidy.
  - mstep. mstep. unfold ret.
    by rewrite delete_insert_id by apply fresh_block_free.
  - mstep. unfold ret. apply Nat.ltb_ge in Hrest.
    assert (length rest ≤ length c - sz).
    { unfold rest. rewrite length_take.
      pose proof (transferred_le (hd Done (tl (tl s))) (length c - sz)). lia. }
    replace (length c - sz) with (length rest) by lia.
    by rewrite overwrite_zeroed.
Qed.

Lemma save_update_state_calm sz state artifact_type fs h s g :
  Forall (eq Done) s → length state = sz →
  mender_storage_save_update_state sz state artifact_type (World fs h s g) =
    (MENDER_OK,
     World (<[MENDER_STORAGE_NVS_UPDATE_STATE := state ++ c_chars artifact_type]> fs)
       h (tl (tl (tl s))) g).
Proof.
  intros Hs Hlen. unfold mender_storage_save_update_state.
  step_by ltac:(by eapply fopen_wb_done, calm_tl_hd).
  rewrite (bind_run _ _ _ _ _ (fwrite_run _ _ _ _ _ _ _ _)). tidy.
  rewrite lookup_insert_eq, insert_insert_eq. tidy.
  rewrite (calm_tl_hd (tl s)) by auto using calm_tl.
  rewrite Nat.mul_1_l, Nat.div_1_r, app_nil_l. cbn [transferred].
  rewrite take_ge by lia. rewrite Hlen, Nat.eqb_refl. tidy.
  rewrite (bind_run _ _ _ _ _ (fwrite_run _ _ _ _ _ _ _ _)). tidy.
  rewrite lookup_insert_eq, insert_insert_eq. tidy.
  rewrite (calm_tl_hd (tl (tl s))) by auto using calm_tl.
  rewrite Nat.mul_1_l, Nat.div_1_r. cbn [transferred].
  fold (c_chars artifact_type). rewrite length_c_chars, Nat.eqb_refl. tidy.
  mstep. reflexivity.
Qed.

(** Decoding on a platform that completes every call. *)
Lemma get_update_state_calm sz state chars st0 at0 fs h s g :
  0 < sz → length state = sz → length st0 = sz → 2 ≤ length chars →
  Forall (eq Done) s →
  fs !! MENDER_STORAGE_NVS_UPDATE_STATE = Some (state ++ chars) →
  mender_storage_get_update_state sz st0 at0 (World fs h s g) =
    (MENDER_OK, state, Ptr (fresh (dom h)),
     World fs (<[fresh (dom h) := chars ++ [NUL]]> h) (tl (tl (tl s))) g).
Proof.
  intros Hsz Hstate Hst0 Hchars Hs H.
  rewrite (get_update_state_decode sz st0 at0 fs h s g (state ++ chars) H)
    by (rewrite length_app; lia).
  rewrite (calm_tl_hd s), (calm_tl_hd (tl s)), (calm_tl_hd (tl (tl s)))
    by auto using calm_tl.
  cbn [transferred]. cbv zeta.
  rewrite Nat.mul_1_r, take_app_length' by done.
  rewrite Hstate, Nat.div_same by lia.
  change (1 <? 1) with false. cbv iota.
  rewrite overwrite_all by lia.
  rewrite <- Hstate, drop_app_length, length_app.
  replace (length state + length chars - length state) with (length chars) by lia.
  rewrite take_ge by done.
  by rewrite Nat.ltb_irrefl.
Qed.

(** ** The getters and setters built on the reader and writer *)

(** A record is decoded only when it holds at least two bytes more than a
    state value. *)
Lemma get_update_state_OK_length sz st0 at0 w :
  fst (fst (result (mender_storage_get_update_state sz st0 at0) w)) = MENDER_OK →
  ∃ c, w_files w !! MENDER_STORAGE_NVS_UPDATE_STATE = Some c ∧ sz + 2 ≤ length c.
Proof.
  unfold result.
  destruct (w_files w !! MENDER_STORAGE_NVS_UPDATE_STATE) as [c|] eqn:H.
  - destruct (decide (c = [])) as [->|Hc].
    { by rewrite get_update_state_empty. }
    destruct (decide (length c < sz + 2)) as [Hlt|Hge].
    { by rewrite (get_update_state_short sz st0 at0 w c). }
    intros _. exists c. split; [done | lia].
  - by rewrite get_update_state_absent.
Qed.

(** What a successful read leaves behind. *)
Lemma read_file_OK path d n w p len w' :
  mender_storage_read_file path d n w = (MENDER_OK, p, len, w') →
  ∃ c, w_files w !! path = Some c ∧ c ≠ [] ∧ len = length c ∧
       p = Ptr (fresh (dom (w_heap w))) ∧
       w_heap w' = <[fresh (dom (w_heap w)) := c ++ [NUL]]> (w_heap w) ∧
       w_files w' = w_files w.
Proof.
  destruct (w_files w !! path) as [c|] eqn:H.
  2:{ by rewrite read_file_absent. }
  destruct (decide (c = [])) as [->|Hc].
  { by rewrite read_file_empty. }
  destruct w as [fs h s g]. simpl in H.
  rewrite (read_file_present path d n fs h s g c H Hc).
  destruct (hd Done s); [|done]. cbv zeta. case_decide; [|done].
  intros [= <- <- <-]. by exists c.
Qed.

(** A read that does not succeed leaves the items and the heap as they were. *)
Lemma read_file_not_OK path d n w r p len w' :
  mender_storage_read_file path d n w = (r, p, len, w') →
  r ≠ MENDER_OK →
  w_heap w' = w_heap w ∧ w_files w' = w_files w.
Proof.
  destruct (w_files w !! path) as [c|] eqn:H.
  2:{ rewrite read_file_absent by done. by intros [= <- <- <- <-]. }
  destruct (decide (c = [])) as [->|Hc].
  { rewrite read_file_empty by done. by intros [= <- <- <- <-]. }
  destruct w as [fs h s g]. simpl in H.
  rewrite (read_file_present path d n fs h s g c H Hc).
  destruct (hd Done s).
  - cbv zeta. case_decide; intros [= <- <- <- <-]; done.
  - by intros [= <- <- <- <-].
Qed.

Lemma get_deployment_data_run p0 w r p len w' :
  mender_storage_read_file MENDER_STORAGE_NVS_DEPLOYMENT_DATA p0 0 w
    = (r, p, len, w') →
  mender_storage_get_deployment_data p0 w =
    (if mender_err_eqb MENDER_OK r then MENDER_OK else MENDER_NOT_FOUND, p, w').
Proof.
  intros H. unfold mender_storage_get_deployment_data.
  erewrite bind_run by exact H. cbv beta iota. by destruct r.
Qed.

Lemma get_artifact_name_run p0 w r p len w' :
  mender_storage_read_file MENDER_STORAGE_NVS_ARTICACT_NAME p0 0 w
    = (r, p, len, w') →
  mender_storage_get_artifact_name p0 w =
    match r with
    | MENDER_NOT_FOUND =>
        (let* q := strdup (c_literal "unknown") in ret (MENDER_OK, q)) w'
    | _ => (r, p, w')
    end.
Proof.
  intros H. unfold mender_storage_get_artifact_name.
  erewrite bind_run by exact H. cbv beta iota. by destruct r.
Qed.

Lemma key_items_differ :
  MENDER_STORAGE_NVS_PRIVATE_KEY ≠ MENDER_STORAGE_NVS_PUBLIC_KEY.
Proof. discriminate. Qed.

Lemma read_file_breaks path d n w c :
  w_files w !! path = Some c → c ≠ [] → read_completes w (length c) = false →
  fst (fst (result (mender_storage_read_file path d n) w)) = MENDER_FAIL.
Proof.
  destruct w as [fs h s g]. unfold read_completes, result. simpl.
  intros H Hc Hbreak. rewrite (read_file_present path d n fs h s g c H Hc).
  destruct (hd Done s); [|done]. cbv zeta.
  apply Nat.eqb_neq in Hbreak. by rewrite decide_False.
Qed.

Lemma read_file_completes path d n fs h s g c :
  fs !! path = Some c → c ≠ [] →
  read_completes (World fs h s g) (length c) = true →
  mender_storage_read_file path d n (World fs h s g) =
    (MENDER_OK, Ptr (fresh (dom h)), length c,
     World fs (<[fresh (dom h) := c ++ [NUL]]> h) (tl (tl s)) g).
Proof.
  unfold read_completes. simpl.
  intros H Hc Hok. rewrite (read_file_present path d n fs h s g c H Hc).
  destruct (hd Done s); [|done]. cbv zeta.
  apply Nat.eqb_eq in Hok. by rewrite decide_True.
Qed.

Lemma get_deployment_data_code p0 w :
  fst (result (mender_storage_get_deployment_data p0) w) =
    if mender_err_eqb MENDER_OK
         (fst (fst (result
            (mender_storage_read_file MENDER_STORAGE_NVS_DEPLOYMENT_DATA p0 0) w)))
    then MENDER_OK else MENDER_NOT_FOUND.
Proof.
  unfold result.
  destruct (mender_storage_read_file _ p0 0 w) as [[[r p] len] w'] eqn:H.
  by rewrite (get_deployment_data_run p0 w r p len w' H).
Qed.

Lemma set_authentication_keys_run priv n1 pub n2 w :
  mender_storage_set_authentication_keys priv n1 pub n2 w =
    let write1 := mender_storage_write_file MENDER_STORAGE_NVS_PRIVATE_KEY priv n1 in
    let write2 := mender_storage_write_file MENDER_STORAGE_NVS_PUBLIC_KEY pub n2 in
    match result write1 w with
    | MENDER_OK =>
        match result write2 (after write1 w) with
        | MENDER_OK => (MENDER_OK, after write2 (after write1 w))
        | _ => (MENDER_FAIL, after write2 (after write1 w))
        end
    | _ => (MENDER_FAIL, after write1 w)
    end.
Proof.
  unfold mender_storage_set_authentication_keys, result, after, bind, ret.
  cbv zeta.
  destruct (mender_storage_write_file _ priv n1 w) as [r1 w1].
  destruct r1; try done. cbn [fst snd negb mender_err_eqb].
  destruct (mender_storage_write_file _ pub n2 w1) as [r2 w2].
  by destruct r2.
Qed.

Lemma buffer_of_block w b c :
  w_heap w !! b = Some (c ++ [NUL]) → buffer_of w (Ptr b) c.
Proof.
  intros H. exists b, (c ++ [NUL]). split; [done|]. split; [done|].
  rewrite length_app, take_app_length, lookup_app_r, Nat.sub_diag by done.
  done.
Qed.




Lemma set_deployment_data_empty data w :
  strlen data = 0 →
  result (mender_storage_set_deployment_data data) w = MENDER_OK →
  w_files (after (mender_storage_set_deployment_data data) w)
    !! MENDER_STORAGE_NVS_DEPLOYMENT_DATA = Some [].
Proof.
  intros Hlen. unfold result, after, mender_storage_set_deployment_data.
  cbv zeta. rewrite Hlen. unfold bind.
  pose proof (write_file_OK MENDER_STORAGE_NVS_DEPLOYMENT_DATA data 0 w) as Hw.
  unfold result, after in Hw.
  destruct (mender_storage_write_file _ data 0 w) as [r w1].
  destruct r; try done. intros _. cbn [fst snd negb mender_err_eqb ret] in *.
  destruct Hw as [-> _]; [done|]. by rewrite take_0, lookup_insert_eq.
Qed.

Lemma set_artifact_name_empty data w :
  strlen data = 0 →
  result (mender_storage_set_artifact_name data) w = MENDER_OK →
  w_files (after (mender_storage_set_artifact_name data) w)
    !! MENDER_STORAGE_NVS_ARTICACT_NAME = Some [].
Proof.
  intros Hlen. unfold result, after, mender_storage_set_artifact_name.
  cbv zeta. rewrite Hlen. unfold bind.
  pose proof (write_file_OK MENDER_STORAGE_NVS_ARTICACT_NAME data 0 w) as Hw.
  unfold result, after in Hw.
  destruct (mender_storage_write_file _ data 0 w) as [r w1].
  destruct r; try done. intros _. cbn [fst snd negb mender_err_eqb ret] in *.
  destruct Hw as [-> _]; [done|]. by rewrite take_0, lookup_insert_eq.
Qed.

(** * The claims *)

(** ** Round trip of the update state *)

(** C1 (as amended): for every state value and every artifact type of at
    least two characters, on a platform that completes every call,
    [mender_storage_save_update_state] returns [MENDER_OK] and a following
    [mender_storage_get_update_state] returns [MENDER_OK] with the same state
    value and a pointer to the same artifact-type string. *)
Theorem save_then_get_update_state
    (sz : nat) (w : world) (state artifact_type st0 : list byte) (at0 : ptr) :
  0 < sz → length state = sz → length st0 = sz →
  2 ≤ strlen artifact_type → calm w →
  let save := mender_storage_save_update_state sz state artifact_type in
  let get := mender_storage_get_update_state sz st0 at0 in
  result save w = MENDER_OK ∧
  ∃ p, result get (after save w) = (MENDER_OK, state, p) ∧
       string_at (after get (after save w)) p = Some (c_chars artifact_type).
Proof.
  intros Hsz Hstate Hst0 Hat Hcalm save get. subst save get.
  destruct w as [fs h s g]. unfold calm in Hcalm. simpl in Hcalm.
  unfold result, after.
  rewrite save_update_state_calm by done. cbn [fst snd].
  split; [done|].
  rewrite (get_update_state_calm sz state (c_chars artifact_type))
    by (rewrite ?length_c_chars, ?lookup_insert_eq; auto using calm_tl).
  cbn [fst snd]. eexists; split; [done|].
  unfold string_at. cbn [w_heap]. rewrite lookup_insert_eq. cbn [mbind option_bind].
  rewrite strlen_terminated, c_chars_terminated, length_app, length_c_chars.
  rewrite decide_True by (simpl; lia). done.
Qed.

(** The round trip at a four-byte state value and the type "rootfs-image",
    in the blank world. *)
Lemma save_then_get_update_state_witness :
  let save :=
    mender_storage_save_update_state 4 sample_state (c_literal "rootfs-image") in
  let get := mender_storage_get_update_state 4 zero_state NULL in
  result save blank = MENDER_OK ∧
  ∃ p, result get (after save blank) = (MENDER_OK, sample_state, p) ∧
       string_at (after get (after save blank)) p
         = Some (c_chars (c_literal "rootfs-image")).
Proof.
  apply (save_then_get_update_state 4 blank sample_state
           (c_literal "rootfs-image") zero_state NULL).
  - lia.
  - reflexivity.
  - reflexivity.
  - vm_compute. lia.
  - constructor.
Defined.

(** C1 as stated fails: with the empty artifact type the saved record is
    rejected by the following get, on a platform that completes every call. *)
Lemma save_then_get_update_state_empty_type :
  let save := mender_storage_save_update_state 4 sample_state (c_literal "") in
  let get := mender_storage_get_update_state 4 zero_state NULL in
  result save blank = MENDER_OK ∧
  fst (fst (result get (after save blank))) = MENDER_FAIL ∧
  fst (fst (result get (after save blank))) ≠ MENDER_OK.
Proof. vm_compute. repeat split; discriminate. Qed.

(** ** The record that holds a state value only *)

(** C2 (as amended): a persisted record made of exactly one state value and a
    zero-length artifact type is shorter than the minimum valid length, one
    state value plus two bytes: [mender_storage_get_update_state] returns
    [MENDER_FAIL] for it and leaves the caller's outputs and the world
    untouched, and no record shorter than that minimum is ever decoded. *)
Theorem get_update_state_state_only
    (sz : nat) (w : world) (state st0 : list byte) (at0 : ptr) :
  0 < sz → length state = sz →
  w_files w !! MENDER_STORAGE_NVS_UPDATE_STATE = Some state →
  mender_storage_get_update_state sz st0 at0 w = (MENDER_FAIL, st0, at0, w) ∧
  ∀ w' st' at',
    fst (fst (result (mender_storage_get_update_state sz st' at') w')) = MENDER_OK →
    ∃ c, w_files w' !! MENDER_STORAGE_NVS_UPDATE_STATE = Some c ∧
         sz + 2 ≤ length c.
Proof.
  intros Hsz Hlen H. split.
  - apply (get_update_state_short sz st0 at0 w state H); [|lia].
    intros ->. simpl in Hlen. lia.
  - intros w' st' at'. apply get_update_state_OK_length.
Qed.

(** A record that holds the four bytes of a state value and nothing else. *)
Lemma get_update_state_state_only_witness :
  let w := with_item MENDER_STORAGE_NVS_UPDATE_STATE sample_state blank in
  mender_storage_get_update_state 4 zero_state NULL w
    = (MENDER_FAIL, zero_state, NULL, w).
Proof.
  apply (get_update_state_state_only 4
           (with_item MENDER_STORAGE_NVS_UPDATE_STATE sample_state blank)
           sample_state zero_state NULL).
  - lia.
  - reflexivity.
  - vm_compute. reflexivity.
Defined.

(** C2 as stated fails: the record that holds one state value and nothing
    else is not decoded, the call returns [MENDER_FAIL]. *)
Lemma get_update_state_state_only_fails :
  let w := with_item MENDER_STORAGE_NVS_UPDATE_STATE sample_state blank in
  length sample_state = 4 ∧
  fst (fst (result (mender_storage_get_update_state 4 zero_state NULL) w))
    = MENDER_FAIL.
Proof. vm_compute. done. Qed.

(** ** Absent, empty and short records *)

(** C3: [mender_storage_get_update_state] returns [MENDER_NOT_FOUND] when the
    update-state item is absent or empty, and [MENDER_FAIL] for every stored
    record that is not empty but shorter than a state value plus two bytes;
    in both cases the caller's outputs and the world are left as they were. *)
Theorem get_update_state_absent_empty_or_short
    (sz : nat) (w : world) (st0 : list byte) (at0 : ptr) :
  (w_files w !! MENDER_STORAGE_NVS_UPDATE_STATE = None ∨
   w_files w !! MENDER_STORAGE_NVS_UPDATE_STATE = Some [] →
   mender_storage_get_update_state sz st0 at0 w
     = (MENDER_NOT_FOUND, st0, at0, w)) ∧
  (∀ c, w_files w !! MENDER_STORAGE_NVS_UPDATE_STATE = Some c →
        c ≠ [] → length c < sz + 2 →
        mender_storage_get_update_state sz st0 at0 w
          = (MENDER_FAIL, st0, at0, w)).
Proof.
  split.
  - intros [H|H].
    + by apply get_update_state_absent.
    + by apply get_update_state_empty.
  - intros c. apply get_update_state_short.
Qed.

(** No record at all, and a record of a state value and one more byte. *)
Lemma get_update_state_absent_empty_or_short_witness :
  let w := with_item MENDER_STORAGE_NVS_UPDATE_STATE
             (sample_state ++ [Byte.x61]) blank in
  mender_storage_get_update_state 4 zero_state NULL blank
    = (MENDER_NOT_FOUND, zero_state, NULL, blank) ∧
  mender_storage_get_update_state 4 zero_state NULL w
    = (MENDER_FAIL, zero_state, NULL, w).
Proof.
  split.
  - apply (proj1 (get_update_state_absent_empty_or_short 4 blank zero_state NULL)).
    left. vm_compute. reflexivity.
  - apply (proj2 (get_update_state_absent_empty_or_short 4
                    (with_item MENDER_STORAGE_NVS_UPDATE_STATE
                       (sample_state ++ [Byte.x61]) blank) zero_state NULL)
             (sample_state ++ [Byte.x61])).
    + vm_compute. reflexivity.
    + discriminate.
    + simpl. lia.
Defined.

(** ** A private key without its public key *)

(** Whenever the public key is absent the call returns [MENDER_NOT_FOUND]
    and leaves the heap and the items as they were; after a private key was
    read the private-key outputs are NULL and 0. *)
Lemma get_authentication_keys_public_absent_run (w : world) (out : key_outputs) :
  w_files w !! MENDER_STORAGE_NVS_PUBLIC_KEY = None →
  let get := mender_storage_get_authentication_keys out in
  (fst (result get w) = MENDER_NOT_FOUND ∧
   public_key (snd (result get w)) = public_key out ∧
   public_key_length (snd (result get w)) = public_key_length out ∧
   w_heap (after get w) = w_heap w ∧
   w_files (after get w) = w_files w) ∧
  (∀ priv,
     w_files w !! MENDER_STORAGE_NVS_PRIVATE_KEY = Some priv → priv ≠ [] →
     read_completes w (length priv) = true →
     private_key (snd (result get w)) = NULL ∧
     private_key_length (snd (result get w)) = 0).
Proof.
  intros Hpub get. subst get.
  unfold result, after, mender_storage_get_authentication_keys.
  destruct (mender_storage_read_file MENDER_STORAGE_NVS_PRIVATE_KEY
              (private_key out) (private_key_length out) w)
    as [[[r1 p1] l1] w1] eqn:H1.
  erewrite bind_run by exact H1. cbv beta iota.
  assert (r1 = MENDER_OK ∨ r1 ≠ MENDER_OK) as [->|Hr1]
    by (destruct r1; auto).
  - cbn [negb mender_err_eqb].
    apply read_file_OK in H1 as (c & Hc & Hcne & -> & -> & Hheap & Hfiles).
    erewrite bind_run by (apply read_file_absent; by rewrite Hfiles).
    cbv beta iota. cbn [negb mender_err_eqb]. mstep. unfold ret.
    cbn [fst snd private_key private_key_length public_key public_key_length
         w_heap w_files].
    rewrite Hheap, delete_insert_id by apply fresh_block_free. done.
  - assert (negb (mender_err_eqb MENDER_OK r1) = true) as ->
      by (by destruct r1).
    unfold ret.
    cbn [fst snd private_key private_key_length public_key public_key_length].
    destruct (read_file_not_OK _ _ _ _ _ _ _ _ H1 Hr1) as [-> ->].
    split; [done|]. intros priv Hpriv Hne Hok. exfalso.
    destruct w as [fs h s g]. simpl in Hpriv.
    rewrite (read_file_completes _ _ _ fs h s g priv Hpriv Hne Hok) in H1.
    congruence.
Qed.

(** C4 (as amended): whenever the public-key item is absent,
    [mender_storage_get_authentication_keys] returns [MENDER_NOT_FOUND] and
    leaves the heap and the items as before the call.  When the private-key
    item holds a key that is not empty and whose read succeeds, a buffer is
    allocated for it and released again, and the caller's private-key
    pointer is left at NULL and its length at 0.  When the private-key item
    is absent or empty, nothing is allocated and the caller's outputs are
    left as they were. *)
Theorem get_authentication_keys_public_absent (w : world) (out : key_outputs) :
  w_files w !! MENDER_STORAGE_NVS_PUBLIC_KEY = None →
  let get := mender_storage_get_authentication_keys out in
  let read := mender_storage_read_file MENDER_STORAGE_NVS_PRIVATE_KEY
                (private_key out) (private_key_length out) in
  (fst (result get w) = MENDER_NOT_FOUND ∧
   public_key (snd (result get w)) = public_key out ∧
   public_key_length (snd (result get w)) = public_key_length out ∧
   w_heap (after get w) = w_heap w ∧
   w_files (after get w) = w_files w) ∧
  (∀ priv,
     w_files w !! MENDER_STORAGE_NVS_PRIVATE_KEY = Some priv → priv ≠ [] →
     read_completes w (length priv) = true →
     private_key (snd (result get w)) = NULL ∧
     private_key_length (snd (result get w)) = 0 ∧
     ∃ b, w_heap w !! b = None ∧
          result read w = (MENDER_OK, Ptr b, length priv) ∧
          w_heap (after read w) !! b = Some (priv ++ [NUL]) ∧
          w_heap (after get w) !! b = None) ∧
  (w_files w !! MENDER_STORAGE_NVS_PRIVATE_KEY = None ∨
   w_files w !! MENDER_STORAGE_NVS_PRIVATE_KEY = Some [] →
   get w = (MENDER_NOT_FOUND, out, w)).
Proof.
  intros Hpub get read. subst get read.
  destruct (get_authentication_keys_public_absent_run w out Hpub)
    as [Hcall Hpriv].
  split; [exact Hcall|]. split.
  - intros priv Hp Hne Hok. destruct (Hpriv priv Hp Hne Hok) as [Hnull Hzero].
    split; [done|]. split; [done|].
    destruct Hcall as (_ & _ & _ & Hheap & _).
    destruct w as [fs h s g]. cbn [w_files w_heap] in *.
    exists (fresh (dom h)). rewrite Hheap. unfold result, after.
    rewrite (read_file_completes _ _ _ fs h s g priv Hp Hne Hok).
    cbn [fst snd w_heap].
    split; [apply fresh_block_free|]. split; [done|].
    split; [apply lookup_insert_eq | apply fresh_block_free].
  - intros H. unfold mender_storage_get_authentication_keys.
    erewrite bind_run.
    2:{ destruct H; [by apply read_file_absent | by apply read_file_empty]. }
    by destruct out.
Qed.

(** A private key of four bytes without a public key, read into outputs that
    held other values. *)
Lemma get_authentication_keys_public_absent_witness :
  let w := with_item MENDER_STORAGE_NVS_PRIVATE_KEY sample_state blank in
  let get := mender_storage_get_authentication_keys
               (KeyOutputs (Ptr 7) 9 (Ptr 8) 5) in
  let read := mender_storage_read_file MENDER_STORAGE_NVS_PRIVATE_KEY (Ptr 7) 9 in
  (fst (result get w) = MENDER_NOT_FOUND ∧
   public_key (snd (result get w)) = Ptr 8 ∧
   public_key_length (snd (result get w)) = 5 ∧
   w_heap (after get w) = w_heap w ∧
   w_files (after get w) = w_files w) ∧
  private_key (snd (result get w)) = NULL ∧
  private_key_length (snd (result get w)) = 0 ∧
  ∃ b, w_heap w !! b = None ∧
       result read w = (MENDER_OK, Ptr b, 4) ∧
       w_heap (after read w) !! b = Some (sample_state ++ [NUL]) ∧
       w_heap (after get w) !! b = None.
Proof.
  pose proof (get_authentication_keys_public_absent
                (with_item MENDER_STORAGE_NVS_PRIVATE_KEY sample_state blank)
                (KeyOutputs (Ptr 7) 9 (Ptr 8) 5) eq_refl) as (Hcall & Hpriv & _).
  split; [exact Hcall|].
  apply (Hpriv sample_state); [reflexivity | discriminate | reflexivity].
Defined.

(** C4 as stated fails.  The private-key item exists and the public-key item
    is absent in both worlds.  With an empty private-key item and no failure
    the call returns [MENDER_NOT_FOUND] and the caller's private-key pointer
    and length are what they were, not NULL and 0.  With a private key of
    four bytes whose read stops after two, the call returns
    [MENDER_NOT_FOUND] and the caller's pointer is left at the released
    buffer, with length 4. *)
Lemma get_authentication_keys_private_unreadable :
  let out := KeyOutputs (Ptr 7) 9 (Ptr 8) 5 in
  let get := mender_storage_get_authentication_keys out in
  let empty := with_item MENDER_STORAGE_NVS_PRIVATE_KEY [] blank in
  let cut := set_script [Done; Cut 2]
               (with_item MENDER_STORAGE_NVS_PRIVATE_KEY sample_state blank) in
  (is_Some (w_files empty !! MENDER_STORAGE_NVS_PRIVATE_KEY) ∧
   w_files empty !! MENDER_STORAGE_NVS_PUBLIC_KEY = None ∧
   result get empty = (MENDER_NOT_FOUND, KeyOutputs (Ptr 7) 9 (Ptr 8) 5)) ∧
  (is_Some (w_files cut !! MENDER_STORAGE_NVS_PRIVATE_KEY) ∧
   w_files cut !! MENDER_STORAGE_NVS_PUBLIC_KEY = None ∧
   result get cut = (MENDER_NOT_FOUND, KeyOutputs (Ptr 1) 4 (Ptr 8) 5) ∧
   dangling (after get cut) (Ptr 1)).
Proof. vm_compute. repeat split; by eexists. Qed.

(** ** Outputs after a failed decode *)

(** C5 fails on the code.  The record is well formed and holds the state
    value 2 and the type "rootfs-image"; the caller's variables hold a zeroed
    state and a null pointer.  When the allocation of the type buffer fails,
    and when the read of the type stops early, the call returns
    [MENDER_FAIL], yet the caller's state variable holds the decoded value;
    in the second case the caller's pointer is left at the released buffer. *)
Theorem get_update_state_failure_exposes_outputs :
  let record := sample_state ++ String.list_byte_of_string "rootfs-image" in
  let w := with_item MENDER_STORAGE_NVS_UPDATE_STATE record blank in
  let get := mender_storage_get_update_state 4 zero_state NULL in
  result get (set_script [Done; Cut 0] w) = (MENDER_FAIL, sample_state, NULL) ∧
  result get (set_script [Done; Done; Cut 3] w)
    = (MENDER_FAIL, sample_state, Ptr 1) ∧
  dangling (after get (set_script [Done; Done; Cut 3] w)) (Ptr 1).
Proof. vm_compute. done. Qed.

(** ** Return codes of the deployment-data getter *)

(** C6 (as amended): [mender_storage_get_deployment_data] returns
    [MENDER_NOT_FOUND] when and only when the item cannot be read: it is
    absent, it is empty, or it holds data and the allocation or the read
    fails (the file reader's [MENDER_FAIL] is turned into
    [MENDER_NOT_FOUND]).  When the item holds data and the read succeeds it
    returns [MENDER_OK] with a buffer that holds the data.  It never returns
    [MENDER_FAIL]. *)
Theorem get_deployment_data_codes (w : world) (p0 : ptr) :
  let get := mender_storage_get_deployment_data p0 in
  let code := fst (result get w) in
  (code = MENDER_OK ∨ code = MENDER_NOT_FOUND) ∧
  (w_files w !! MENDER_STORAGE_NVS_DEPLOYMENT_DATA = None ∨
   w_files w !! MENDER_STORAGE_NVS_DEPLOYMENT_DATA = Some [] →
   code = MENDER_NOT_FOUND) ∧
  (∀ c, w_files w !! MENDER_STORAGE_NVS_DEPLOYMENT_DATA = Some c → c ≠ [] →
        read_completes w (length c) = false →
        fst (fst (result (mender_storage_read_file
                            MENDER_STORAGE_NVS_DEPLOYMENT_DATA p0 0) w))
          = MENDER_FAIL ∧
        code = MENDER_NOT_FOUND) ∧
  (∀ c, w_files w !! MENDER_STORAGE_NVS_DEPLOYMENT_DATA = Some c → c ≠ [] →
        read_completes w (length c) = true →
        code = MENDER_OK ∧ buffer_of (after get w) (snd (result get w)) c).
Proof.
  intros get code. subst get code.
  split; [|split; [|split]].
  - rewrite get_deployment_data_code. destruct (mender_err_eqb _ _); auto.
  - rewrite get_deployment_data_code. unfold result. intros [H|H].
    + by rewrite read_file_absent.
    + by rewrite read_file_empty.
  - intros c H Hc Hbreak. rewrite get_deployment_data_code.
    by rewrite (read_file_breaks _ p0 0 w c H Hc Hbreak).
  - intros c H Hc Hok. destruct w as [fs h s g]. cbn [w_files] in H.
    unfold result, after.
    erewrite get_deployment_data_run
      by apply (read_file_completes _ p0 0 fs h s g c H Hc Hok).
    cbn [fst snd mender_err_eqb]. split; [done|].
    apply buffer_of_block. apply lookup_insert_eq.
Qed.

(** Deployment data of two bytes: its read fails on the allocation, and its
    read goes through. *)
Lemma get_deployment_data_codes_witness :
  let item := with_item MENDER_STORAGE_NVS_DEPLOYMENT_DATA
                (String.list_byte_of_string "{}") blank in
  let get := mender_storage_get_deployment_data NULL in
  (fst (fst (result (mender_storage_read_file
                       MENDER_STORAGE_NVS_DEPLOYMENT_DATA NULL 0)
               (set_script [Cut 0] item)))
     = MENDER_FAIL ∧
   fst (result get (set_script [Cut 0] item)) = MENDER_NOT_FOUND) ∧
  (fst (result get item) = MENDER_OK ∧
   buffer_of (after get item) (snd (result get item))
     (String.list_byte_of_string "{}")).
Proof.
  split.
  - apply (proj1 (proj2 (proj2 (get_deployment_data_codes
             (set_script [Cut 0]
                (with_item MENDER_STORAGE_NVS_DEPLOYMENT_DATA
                   (String.list_byte_of_string "{}") blank)) NULL)))
             (String.list_byte_of_string "{}")).
    + vm_compute. reflexivity.
    + discriminate.
    + reflexivity.
  - apply (proj2 (proj2 (proj2 (get_deployment_data_codes
             (with_item MENDER_STORAGE_NVS_DEPLOYMENT_DATA
                (String.list_byte_of_string "{}") blank) NULL)))
             (String.list_byte_of_string "{}")).
    + vm_compute. reflexivity.
    + discriminate.
    + reflexivity.
Defined.

(** C6 as stated fails, both ways: an item that exists but is empty gives
    [MENDER_NOT_FOUND], and an item that exists and whose read fails on the
    allocation gives [MENDER_NOT_FOUND], not [MENDER_FAIL]. *)
Lemma get_deployment_data_not_found_though_present :
  let empty := with_item MENDER_STORAGE_NVS_DEPLOYMENT_DATA [] blank in
  let w := set_script [Cut 0]
             (with_item MENDER_STORAGE_NVS_DEPLOYMENT_DATA
                (String.list_byte_of_string "{}") blank) in
  (is_Some (w_files empty !! MENDER_STORAGE_NVS_DEPLOYMENT_DATA) ∧
   fst (result (mender_storage_get_deployment_data NULL) empty)
     = MENDER_NOT_FOUND) ∧
  (is_Some (w_files w !! MENDER_STORAGE_NVS_DEPLOYMENT_DATA) ∧
   fst (result (mender_storage_get_deployment_data NULL) w) = MENDER_NOT_FOUND ∧
   fst (result (mender_storage_get_deployment_data NULL) w) ≠ MENDER_FAIL).
Proof. vm_compute. repeat split; try discriminate; by eexists. Qed.

(** ** The default artifact name *)

(** What the default branch of the getter does: the name "unknown" is
    duplicated, and the call succeeds whether or not the duplicate could be
    allocated. *)
Lemma default_name_run w :
  let m := let* q := strdup (c_literal "unknown") in ret (MENDER_OK, q) in
  fst (fst (m w)) = MENDER_OK ∧
  (hd Done (w_script w) = Done →
   string_at (snd (m w)) (snd (fst (m w)))
     = Some (String.list_byte_of_string "unknown")).
Proof.
  cbv zeta. destruct w as [fs h s g]. unfold strdup. cbn [w_script].
  destruct (hd Done s) eqn:Hs.
  - step_by ltac:(by eapply alloc_done). unfold ret. cbn [fst snd].
    split; [done|]. intros _. unfold string_at. cbn [w_heap].
    rewrite lookup_insert_eq. done.
  - step_by ltac:(by eapply alloc_cut). done.
Qed.

(** C7 (as amended): when the artifact-name item does not exist, and more
    generally whenever the file reader reports [MENDER_NOT_FOUND] (it does
    so for an empty item too), [mender_storage_get_artifact_name] returns
    [MENDER_OK] with the string "unknown" when [strdup] can allocate it; a
    result of the file reader other than [MENDER_OK] and [MENDER_NOT_FOUND]
    is returned as it is, with the reader's outputs, and that is
    [MENDER_FAIL] when the allocation or the read of a stored name that is
    not empty fails. *)
Theorem get_artifact_name_default_and_failures (w : world) (p0 : ptr) :
  let get := mender_storage_get_artifact_name p0 in
  let read := mender_storage_read_file MENDER_STORAGE_NVS_ARTICACT_NAME p0 0 in
  (w_files w !! MENDER_STORAGE_NVS_ARTICACT_NAME = None →
   hd Done (w_script w) = Done →
   fst (result get w) = MENDER_OK ∧
   string_at (after get w) (snd (result get w))
     = Some (String.list_byte_of_string "unknown")) ∧
  (∀ p len w', read w = (MENDER_NOT_FOUND, p, len, w') →
               hd Done (w_script w') = Done →
               fst (result get w) = MENDER_OK ∧
               string_at (after get w) (snd (result get w))
                 = Some (String.list_byte_of_string "unknown")) ∧
  (∀ r p len w', read w = (r, p, len, w') →
                 r ≠ MENDER_OK → r ≠ MENDER_NOT_FOUND →
                 get w = (r, p, w')) ∧
  (∀ c, w_files w !! MENDER_STORAGE_NVS_ARTICACT_NAME = Some c → c ≠ [] →
        read_completes w (length c) = false →
        fst (result get w) = MENDER_FAIL).
Proof.
  intros get read. subst get read.
  assert (∀ p len w',
            mender_storage_read_file MENDER_STORAGE_NVS_ARTICACT_NAME p0 0 w
              = (MENDER_NOT_FOUND, p, len, w') →
            hd Done (w_script w') = Done →
            fst (result (mender_storage_get_artifact_name p0) w) = MENDER_OK ∧
            string_at (after (mender_storage_get_artifact_name p0) w)
              (snd (result (mender_storage_get_artifact_name p0) w))
              = Some (String.list_byte_of_string "unknown")) as Hdefault.
  { intros p len w' H Hs. unfold result, after.
    rewrite (get_artifact_name_run p0 w MENDER_NOT_FOUND p len w' H).
    destruct (default_name_run w') as [Hok Hstr]. cbv zeta in Hok, Hstr.
    split; [exact Hok | exact (Hstr Hs)]. }
  split; [|split; [|split]].
  - intros H. apply (Hdefault p0 0 w). by apply read_file_absent.
  - exact Hdefault.
  - intros r p len w' H Hr1 Hr2.
    rewrite (get_artifact_name_run p0 w r p len w' H). by destruct r.
  - intros c H Hc Hbreak.
    pose proof (read_file_breaks _ p0 0 w c H Hc Hbreak) as Hfail.
    unfold result in *.
    destruct (mender_storage_read_file _ p0 0 w) as [[[r p] len] w'] eqn:Hread.
    simpl in Hfail. subst r.
    by rewrite (get_artifact_name_run p0 w MENDER_FAIL p len w' Hread).
Qed.

(** The artifact name in the blank world, the artifact name when the item is
    empty, and a stored name of four bytes whose read fails on the
    allocation. *)
Lemma get_artifact_name_default_and_failures_witness :
  let get := mender_storage_get_artifact_name NULL in
  let empty := with_item MENDER_STORAGE_NVS_ARTICACT_NAME [] blank in
  let stored := set_script [Cut 0]
                  (with_item MENDER_STORAGE_NVS_ARTICACT_NAME sample_state blank) in
  (fst (result get blank) = MENDER_OK ∧
   string_at (after get blank) (snd (result get blank))
     = Some (String.list_byte_of_string "unknown")) ∧
  (fst (result get empty) = MENDER_OK ∧
   string_at (after get empty) (snd (result get empty))
     = Some (String.list_byte_of_string "unknown")) ∧
  get stored = (MENDER_FAIL, NULL, set_script [] stored) ∧
  fst (result get stored) = MENDER_FAIL.
Proof.
  split; [|split; [|split]].
  - apply (proj1 (get_artifact_name_default_and_failures blank NULL));
      reflexivity.
  - apply (proj1 (proj2 (get_artifact_name_default_and_failures
             (with_item MENDER_STORAGE_NVS_ARTICACT_NAME [] blank) NULL))
             NULL 0 (with_item MENDER_STORAGE_NVS_ARTICACT_NAME [] blank));
      reflexivity.
  - apply (proj1 (proj2 (proj2 (get_artifact_name_default_and_failures
             (set_script [Cut 0]
                (with_item MENDER_STORAGE_NVS_ARTICACT_NAME sample_state blank))
             NULL))) MENDER_FAIL NULL 4);
      [reflexivity | discriminate | discriminate].
  - apply (proj2 (proj2 (proj2 (get_artifact_name_default_and_failures
             (set_script [Cut 0]
                (with_item MENDER_STORAGE_NVS_ARTICACT_NAME sample_state blank))
             NULL))) sample_state).
    + vm_compute. reflexivity.
    + discriminate.
    + reflexivity.
Defined.

(** C7 as stated fails.  With no artifact-name item and a [strdup] that
    cannot allocate, the call returns [MENDER_OK] and the caller's pointer
    is NULL, not the string "unknown".  With an item that exists and is
    empty, the file reader reports [MENDER_NOT_FOUND] and the call does not
    hand that on, it returns [MENDER_OK]. *)
Lemma get_artifact_name_without_default :
  let get := mender_storage_get_artifact_name (Ptr 7) in
  let oom := set_script [Cut 0] blank in
  let empty := with_item MENDER_STORAGE_NVS_ARTICACT_NAME [] blank in
  (w_files oom !! MENDER_STORAGE_NVS_ARTICACT_NAME = None ∧
   result get oom = (MENDER_OK, NULL) ∧
   string_at (after get oom) (snd (result get oom)) = None) ∧
  (is_Some (w_files empty !! MENDER_STORAGE_NVS_ARTICACT_NAME) ∧
   fst (fst (result (mender_storage_read_file
                       MENDER_STORAGE_NVS_ARTICACT_NAME (Ptr 7) 0) empty))
     = MENDER_NOT_FOUND ∧
   fst (result get empty) = MENDER_OK).
Proof. vm_compute. repeat split; by eexists. Qed.

(** ** No rollback of the private key *)

(** C8: [mender_storage_set_authentication_keys] returns [MENDER_FAIL] when
    the write of the private key fails and when the write of the public key
    fails; in the second case the private-key item is not rolled back, it
    holds the key just written. *)
Theorem set_authentication_keys_no_rollback
    (w : world) (priv : list byte) (n1 : nat) (pub : list byte) (n2 : nat) :
  let write1 := mender_storage_write_file MENDER_STORAGE_NVS_PRIVATE_KEY priv n1 in
  let write2 := mender_storage_write_file MENDER_STORAGE_NVS_PUBLIC_KEY pub n2 in
  let set := mender_storage_set_authentication_keys priv n1 pub n2 in
  (result write1 w ≠ MENDER_OK → result set w = MENDER_FAIL) ∧
  (result write1 w = MENDER_OK →
   result write2 (after write1 w) ≠ MENDER_OK →
   result set w = MENDER_FAIL ∧
   w_files (after set w) !! MENDER_STORAGE_NVS_PRIVATE_KEY
     = Some (take n1 priv) ∧
   length (take n1 priv) = n1).
Proof.
  intros write1 write2 set. subst write1 write2 set.
  change (result (mender_storage_set_authentication_keys priv n1 pub n2) w)
    with (fst (mender_storage_set_authentication_keys priv n1 pub n2 w)).
  change (after (mender_storage_set_authentication_keys priv n1 pub n2) w)
    with (snd (mender_storage_set_authentication_keys priv n1 pub n2 w)).
  rewrite set_authentication_keys_run. cbv zeta. split.
  - intros H1. by destruct (result _ w).
  - intros H1 H2. rewrite H1.
    destruct (write_file_OK _ priv n1 w H1) as [Hfiles Hlen].
    assert (w_files
              (after (mender_storage_write_file MENDER_STORAGE_NVS_PUBLIC_KEY pub n2)
                 (after (mender_storage_write_file MENDER_STORAGE_NVS_PRIVATE_KEY
                           priv n1) w))
              !! MENDER_STORAGE_NVS_PRIVATE_KEY = Some (take n1 priv)) as Hkeep.
    { rewrite write_file_other by (apply not_eq_sym, key_items_differ).
      rewrite Hfiles. apply lookup_insert_eq. }
    rewrite length_take, Nat.min_l by done.
    by destruct (result _ (after _ w)).
Qed.

(** The private key is written, then opening the public-key item fails. *)
Lemma set_authentication_keys_no_rollback_witness :
  let w := set_script [Done; Done; Cut 0] blank in
  let set := mender_storage_set_authentication_keys sample_state 4 zero_state 4 in
  result set w = MENDER_FAIL ∧
  w_files (after set w) !! MENDER_STORAGE_NVS_PRIVATE_KEY
    = Some (take 4 sample_state) ∧
  length (take 4 sample_state) = 4.
Proof.
  apply (proj2 (set_authentication_keys_no_rollback
                  (set_script [Done; Done; Cut 0] blank)
                  sample_state 4 zero_state 4)).
  - vm_compute. reflexivity.
  - vm_compute. discriminate.
Defined.

(** ** Buffers handed out by the reader *)



(** ** Zero-length values *)

(** After a successful [mender_storage_set_deployment_data] of a
    zero-length string, [mender_storage_get_deployment_data] returns
    [MENDER_NOT_FOUND] in every world that holds the items as the set left
    them; after a successful [mender_storage_set_artifact_name] of a
    zero-length string, [mender_storage_get_artifact_name] returns
    [MENDER_OK], and it hands out "unknown" when [strdup] can allocate it. *)
Lemma zero_length_value_reads_as_absent (data : list byte) (w : world) (p0 : ptr) :
  strlen data = 0 →
  (result (mender_storage_set_deployment_data data) w = MENDER_OK →
   ∀ w', w_files w' = w_files (after (mender_storage_set_deployment_data data) w) →
         mender_storage_get_deployment_data p0 w' = (MENDER_NOT_FOUND, p0, w')) ∧
  (result (mender_storage_set_artifact_name data) w = MENDER_OK →
   ∀ w', w_files w' = w_files (after (mender_storage_set_artifact_name data) w) →
         let get := mender_storage_get_artifact_name p0 in
         fst (result get w') = MENDER_OK ∧
         (hd Done (w_script w') = Done →
          string_at (after get w') (snd (result get w'))
            = Some (String.list_byte_of_string "unknown"))).
Proof.
  intros Hlen. split.
  - intros Hok w' Hfiles.
    rewrite (get_deployment_data_run p0 w' MENDER_NOT_FOUND p0 0 w'); [done|].
    apply read_file_empty. rewrite Hfiles. by apply set_deployment_data_empty.
  - intros Hok w' Hfiles get. subst get. unfold result, after.
    rewrite (get_artifact_name_run p0 w' MENDER_NOT_FOUND p0 0 w').
    2:{ apply read_file_empty. rewrite Hfiles. by apply set_artifact_name_empty. }
    destruct w' as [fs h s g]. unfold strdup. cbn [w_script].
    destruct (hd Done s) eqn:Hs.
    + step_by ltac:(by eapply alloc_done). unfold ret. cbn [fst snd].
      split; [done|]. intros _. unfold string_at. cbn [w_heap].
      rewrite lookup_insert_eq. done.
    + step_by ltac:(by eapply alloc_cut). done.
Qed.

(** The empty string stored as deployment data and as artifact name, in the
    blank world. *)
Lemma zero_length_value_reads_as_absent_witness :
  let w1 := after (mender_storage_set_deployment_data (c_literal "")) blank in
  let w2 := after (mender_storage_set_artifact_name (c_literal "")) blank in
  let get := mender_storage_get_artifact_name NULL in
  mender_storage_get_deployment_data NULL w1 = (MENDER_NOT_FOUND, NULL, w1) ∧
  fst (result get w2) = MENDER_OK ∧
  string_at (after get w2) (snd (result get w2))
    = Some (String.list_byte_of_string "unknown").
Proof.
  pose proof (zero_length_value_reads_as_absent (c_literal "") blank NULL eq_refl)
    as [Hdata Hname].
  split.
  - apply Hdata; reflexivity.
  - destruct (Hname eq_refl
                (after (mender_storage_set_artifact_name (c_literal "")) blank)
                eq_refl) as [Hok Hstr].
    split; [exact Hok | apply Hstr; reflexivity].
Defined.

(** C10 fails on the code.  The empty string is stored as artifact name and
    the set returns [MENDER_OK]; the item is empty.  When the following get
    cannot allocate the default, it returns [MENDER_OK] all the same and the
    caller's pointer is NULL: neither the default "unknown" nor any other
    string is handed out. *)
Theorem zero_length_artifact_name_without_default :
  let set := mender_storage_set_artifact_name (c_literal "") in
  let w := set_script [Cut 0] (after set blank) in
  let get := mender_storage_get_artifact_name NULL in
  result set blank = MENDER_OK ∧
  w_files w !! MENDER_STORAGE_NVS_ARTICACT_NAME = Some [] ∧
  result get w = (MENDER_OK, NULL) ∧
  string_at (after get w) (snd (result get w)) = None.
Proof. vm_compute. done. Qed.

(** * Further properties of the storage functions *)

(** ** Helpers *)

Lemma write_file_heap path data n w :
  w_heap (after (mender_storage_write_file path data n) w) = w_heap w.
Proof.
  destruct w as [fs h s g]. unfold after. rewrite write_file_run.
  by destruct (hd Done s).
Qed.

Lemma write_file_done path data n fs h s g :
  Forall (eq Done) s → n ≤ length data →
  mender_storage_write_file path data n (World fs h s g) =
    (MENDER_OK, World (<[path := take n data]> fs) h (tl (tl s)) g).
Proof.
  intros Hs Hn. rewrite write_file_run.
  rewrite (calm_tl_hd s), (calm_tl_hd (tl s)) by auto using calm_tl.
  cbn [transferred]. cbv zeta.
  by rewrite length_take, Nat.min_l, Nat.eqb_refl.
Qed.

Lemma set_deployment_data_run data w :
  mender_storage_set_deployment_data data w =
    let write := mender_storage_write_file MENDER_STORAGE_NVS_DEPLOYMENT_DATA
                   data (strlen data) in
    (match result write w with MENDER_OK => MENDER_OK | _ => MENDER_FAIL end,
     after write w).
Proof.
  unfold mender_storage_set_deployment_data, result, after, bind, ret. cbv zeta.
  destruct (mender_storage_write_file _ data (strlen data) w) as [r w1].
  by destruct r.
Qed.

Lemma set_artifact_name_run data w :
  mender_storage_set_artifact_name data w =
    let write := mender_storage_write_file MENDER_STORAGE_NVS_ARTICACT_NAME
                   data (strlen data) in
    (match result write w with MENDER_OK => MENDER_OK | _ => MENDER_FAIL end,
     after write w).
Proof.
  unfold mender_storage_set_artifact_name, result, after, bind, ret. cbv zeta.
  destruct (mender_storage_write_file _ data (strlen data) w) as [r w1].
  by destruct r.
Qed.

Lemma c_chars_nonempty s : 1 ≤ strlen s → c_chars s ≠ [].
Proof.
  intros H Hnil. pose proof (length_c_chars s) as Hlen.
  rewrite Hnil in Hlen. simpl in Hlen. lia.
Qed.

Lemma unlink_run path fs h s g :
  unlink path (World fs h s g) =
    match hd Done s, fs !! path with
    | Done, Some _ => (0%Z, World (delete path fs) h (tl s) g)
    | _, _ => ((-1)%Z, World fs h (tl s) g)
    end.
Proof.
  unfold unlink, bind, next_outcome. simpl.
  destruct (hd Done s); [destruct (fs !! path)|]; done.
Qed.

(** ** The file writer and reader *)

(** A write of [n] bytes that the platform lets through returns
    [MENDER_OK]; a write that returns [MENDER_OK] has replaced the item by
    the first [n] bytes of [data], whatever it held before; every write
    leaves the other items and the heap as they were. *)
Theorem write_file_replaces_item
    (path : string) (data : list byte) (n : nat) (w : world) :
  let write := mender_storage_write_file path data n in
  (n ≤ length data → write_completes w n = true →
   result write w = MENDER_OK) ∧
  (result write w = MENDER_OK →
   w_files (after write w) !! path = Some (take n data) ∧ n ≤ length data) ∧
  (∀ other, other ≠ path →
            w_files (after write w) !! other = w_files w !! other) ∧
  w_heap (after write w) = w_heap w.
Proof.
  intros write. subst write. split; [|split; [|split]].
  - intros Hn Hok. destruct w as [fs h s g].
    unfold write_completes in Hok. cbn [w_script] in Hok.
    unfold result. rewrite write_file_run.
    destruct (hd Done s); [|done]. apply Nat.eqb_eq in Hok. cbv zeta.
    by rewrite Hok, length_take, Nat.min_l, Nat.eqb_refl.
  - intros Hok. destruct (write_file_OK path data n w Hok) as [-> Hn].
    by rewrite lookup_insert_eq.
  - intros other Hne. by apply write_file_other.
  - apply write_file_heap.
Qed.

(** The item [key.der] held an old key of four bytes; a new key of four
    bytes is written over it. *)
Lemma write_file_replaces_item_witness :
  let w := with_item MENDER_STORAGE_NVS_PRIVATE_KEY zero_state blank in
  let write := mender_storage_write_file MENDER_STORAGE_NVS_PRIVATE_KEY
                 sample_state 4 in
  result write w = MENDER_OK ∧
  w_files (after write w) !! MENDER_STORAGE_NVS_PRIVATE_KEY
    = Some sample_state.
Proof.
  pose proof (write_file_replaces_item MENDER_STORAGE_NVS_PRIVATE_KEY
                sample_state 4
                (with_item MENDER_STORAGE_NVS_PRIVATE_KEY zero_state blank))
    as (Hok & Hrep & _).
  assert (4 ≤ length sample_state) as Hlen by (simpl; lia).
  split.
  - apply Hok; [exact Hlen | reflexivity].
  - apply (Hrep (Hok Hlen eq_refl)).
Defined.

(** There is no atomic replace.  A write whose open fails returns
    [MENDER_FAIL] and leaves every item as it was.  A write whose open
    completes and whose transfer stops after [k] bytes, fewer than [n],
    returns [MENDER_FAIL] and leaves the item holding the first [k] bytes of
    the new data: what it held before is lost. *)
Theorem write_file_failure_truncates
    (path : string) (data : list byte) (n : nat) (w : world) :
  let write := mender_storage_write_file path data n in
  (∀ k, hd Done (w_script w) = Cut k →
        result write w = MENDER_FAIL ∧ w_files (after write w) = w_files w) ∧
  (∀ k, hd Done (w_script w) = Done →
        transferred (hd Done (tl (w_script w))) n = k →
        k < n → k ≤ length data →
        result write w = MENDER_FAIL ∧
        w_files (after write w) !! path = Some (take k data)).
Proof.
  intros write. subst write. destruct w as [fs h s g]. unfold result, after.
  rewrite write_file_run. cbn [w_script]. split.
  - intros k ->. done.
  - intros k -> Hk Hlt Hle. cbv zeta. rewrite Hk.
    rewrite length_take, Nat.min_l by done.
    rewrite (proj2 (Nat.eqb_neq _ _)) by lia. cbn [fst snd w_files].
    by rewrite lookup_insert_eq.
Qed.

(** The item [key.der] held an old key of four bytes; writing a new one
    stops after two bytes, and the item holds those two bytes. *)
Lemma write_file_failure_truncates_witness :
  let w := set_script [Done; Cut 2]
             (with_item MENDER_STORAGE_NVS_PRIVATE_KEY zero_state blank) in
  let write := mender_storage_write_file MENDER_STORAGE_NVS_PRIVATE_KEY
                 sample_state 4 in
  w_files w !! MENDER_STORAGE_NVS_PRIVATE_KEY = Some zero_state ∧
  result write w = MENDER_FAIL ∧
  w_files (after write w) !! MENDER_STORAGE_NVS_PRIVATE_KEY
    = Some [Byte.x02; Byte.x00].
Proof.
  split; [reflexivity|].
  apply (proj2 (write_file_failure_truncates MENDER_STORAGE_NVS_PRIVATE_KEY
                  sample_state 4
                  (set_script [Done; Cut 2]
                     (with_item MENDER_STORAGE_NVS_PRIVATE_KEY zero_state blank)))
           2).
  - reflexivity.
  - reflexivity.
  - lia.
  - simpl. lia.
Defined.

(** The reader returns [MENDER_NOT_FOUND] and leaves the caller's outputs
    and the world untouched when the item is absent or empty, whatever the
    platform would do.  When the item holds [c], not empty, and the platform
    lets the read through, it returns [MENDER_OK] with the length of [c] and
    a fresh buffer that holds [c] and a NUL.  It never changes an item, and
    it leaves the heap as it was unless it returns [MENDER_OK]. *)
Theorem read_file_outcomes (path : string) (d : ptr) (n : nat) (w : world) :
  let read := mender_storage_read_file path d n in
  (w_files w !! path = None ∨ w_files w !! path = Some [] →
   read w = (MENDER_NOT_FOUND, d, n, w)) ∧
  (∀ c, w_files w !! path = Some c → c ≠ [] →
        read_completes w (length c) = true →
        ∃ p, result read w = (MENDER_OK, p, length c) ∧
             dangling w p ∧ buffer_of (after read w) p c) ∧
  w_files (after read w) = w_files w ∧
  (fst (fst (result read w)) ≠ MENDER_OK → w_heap (after read w) = w_heap w).
Proof.
  intros read. subst read. split; [|split].
  - intros [H|H]; [by apply read_file_absent | by apply read_file_empty].
  - intros c Hc Hne Hok. destruct w as [fs h s g]. cbn [w_files] in Hc.
    unfold result, after.
    rewrite (read_file_completes path d n fs h s g c Hc Hne Hok).
    cbn [fst snd]. eexists. split; [done|].
    split; [apply fresh_block_free|].
    apply buffer_of_block. apply lookup_insert_eq.
  - unfold result, after.
    destruct (mender_storage_read_file path d n w) as [[[r p] len] w'] eqn:H.
    cbn [fst snd].
    assert (r = MENDER_OK ∨ r ≠ MENDER_OK) as [->|Hr] by (destruct r; auto).
    + by apply read_file_OK in H as (c & _ & _ & _ & _ & _ & ?).
    + by destruct (read_file_not_OK _ _ _ _ _ _ _ _ H Hr).
Qed.

(** A private key of four bytes is read; no public key is found. *)
Lemma read_file_outcomes_witness :
  let w := with_item MENDER_STORAGE_NVS_PRIVATE_KEY sample_state blank in
  let read := mender_storage_read_file MENDER_STORAGE_NVS_PRIVATE_KEY NULL 0 in
  mender_storage_read_file MENDER_STORAGE_NVS_PUBLIC_KEY (Ptr 7) 9 w
    = (MENDER_NOT_FOUND, Ptr 7, 9, w) ∧
  ∃ p, result read w = (MENDER_OK, p, 4) ∧
       dangling w p ∧ buffer_of (after read w) p sample_state.
Proof.
  split.
  - apply (proj1 (read_file_outcomes MENDER_STORAGE_NVS_PUBLIC_KEY (Ptr 7) 9
                    (with_item MENDER_STORAGE_NVS_PRIVATE_KEY sample_state blank))).
    left. reflexivity.
  - apply (proj1 (proj2 (read_file_outcomes MENDER_STORAGE_NVS_PRIVATE_KEY NULL 0
                    (with_item MENDER_STORAGE_NVS_PRIVATE_KEY sample_state blank)))
             sample_state); [reflexivity | discriminate | reflexivity].
Defined.

Lemma read_file_done path d n fs h s g c :
  fs !! path = Some c → c ≠ [] → Forall (eq Done) s →
  mender_storage_read_file path d n (World fs h s g) =
    (MENDER_OK, Ptr (fresh (dom h)), length c,
     World fs (<[fresh (dom h) := c ++ [NUL]]> h) (tl (tl s)) g).
Proof.
  intros H Hc Hs. rewrite (read_file_present path d n fs h s g c H Hc).
  rewrite (calm_tl_hd s), (calm_tl_hd (tl s)) by auto using calm_tl.
  cbn [transferred]. by rewrite decide_True.
Qed.

Lemma string_at_terminated w b s :
  w_heap w !! b = Some (c_chars s ++ [NUL]) →
  string_at w (Ptr b) = Some (c_chars s).
Proof.
  intros H. unfold string_at. rewrite H. cbn [mbind option_bind].
  rewrite strlen_terminated, c_chars_terminated, length_app, length_c_chars.
  by rewrite decide_True by (simpl; lia).
Qed.

Lemma fresh_blocks_differ (h : gmap positive (list byte)) blk :
  fresh (dom (<[fresh (dom h) := blk]> h)) ≠ fresh (dom h).
Proof.
  intros Heq. pose proof (fresh_block_free (<[fresh (dom h) := blk]> h)) as H.
  rewrite Heq, lookup_insert_eq in H. done.
Qed.

(** ** Round trips through an item *)

(** On a platform that completes every call, storing deployment data of at
    least one character and reading it back returns [MENDER_OK] both times,
    and the pointer handed out refers to the same string; what the item held
    before does not matter. *)
Theorem set_then_get_deployment_data (data : list byte) (w : world) (p0 : ptr) :
  calm w → 1 ≤ strlen data →
  let set := mender_storage_set_deployment_data data in
  let get := mender_storage_get_deployment_data p0 in
  result set w = MENDER_OK ∧
  fst (result get (after set w)) = MENDER_OK ∧
  string_at (after get (after set w)) (snd (result get (after set w)))
    = Some (c_chars data).
Proof.
  intros Hcalm Hlen set get. subst set get.
  destruct w as [fs h s g]. unfold calm in Hcalm. simpl in Hcalm.
  unfold result, after.
  rewrite set_deployment_data_run. cbv zeta. unfold result, after.
  rewrite write_file_done by (auto using strlen_le). cbn [fst snd].
  split; [done|]. fold (c_chars data).
  erewrite get_deployment_data_run.
  2:{ apply read_file_done; [apply lookup_insert_eq | by apply c_chars_nonempty
                            | auto using calm_tl]. }
  cbn [fst snd mender_err_eqb]. split; [done|].
  apply string_at_terminated. apply lookup_insert_eq.
Qed.

(** Deployment data of two characters, in the blank world. *)
Lemma set_then_get_deployment_data_witness :
  let set := mender_storage_set_deployment_data (c_literal "{}") in
  let get := mender_storage_get_deployment_data NULL in
  result set blank = MENDER_OK ∧
  fst (result get (after set blank)) = MENDER_OK ∧
  string_at (after get (after set blank)) (snd (result get (after set blank)))
    = Some (c_chars (c_literal "{}")).
Proof.
  apply (set_then_get_deployment_data (c_literal "{}") blank NULL).
  - constructor.
  - vm_compute. lia.
Defined.

(** On a platform that completes every call, storing an artifact name of at
    least one character and reading it back returns [MENDER_OK] both times,
    and the pointer handed out refers to the same name, not to the default. *)
Theorem set_then_get_artifact_name (name : list byte) (w : world) (p0 : ptr) :
  calm w → 1 ≤ strlen name →
  let set := mender_storage_set_artifact_name name in
  let get := mender_storage_get_artifact_name p0 in
  result set w = MENDER_OK ∧
  fst (result get (after set w)) = MENDER_OK ∧
  string_at (after get (after set w)) (snd (result get (after set w)))
    = Some (c_chars name).
Proof.
  intros Hcalm Hlen set get. subst set get.
  destruct w as [fs h s g]. unfold calm in Hcalm. simpl in Hcalm.
  unfold result, after.
  rewrite set_artifact_name_run. cbv zeta. unfold result, after.
  rewrite write_file_done by (auto using strlen_le). cbn [fst snd].
  split; [done|]. fold (c_chars name).
  erewrite get_artifact_name_run.
  2:{ apply read_file_done; [apply lookup_insert_eq | by apply c_chars_nonempty
                            | auto using calm_tl]. }
  cbn [fst snd]. split; [done|].
  apply string_at_terminated. apply lookup_insert_eq.
Qed.

(** An artifact name of nine characters, in the blank world. *)
Lemma set_then_get_artifact_name_witness :
  let set := mender_storage_set_artifact_name (c_literal "release-1") in
  let get := mender_storage_get_artifact_name NULL in
  result set blank = MENDER_OK ∧
  fst (result get (after set blank)) = MENDER_OK ∧
  string_at (after get (after set blank)) (snd (result get (after set blank)))
    = Some (c_chars (c_literal "release-1")).
Proof.
  apply (set_then_get_artifact_name (c_literal "release-1") blank NULL).
  - constructor.
  - vm_compute. lia.
Defined.

(** On a platform that completes every call, storing two keys that are not
    empty and reading them back returns [MENDER_OK] both times, with the
    stored lengths and with buffers that hold the stored keys. *)
Theorem set_then_get_authentication_keys
    (priv : list byte) (n1 : nat) (pub : list byte) (n2 : nat)
    (w : world) (out : key_outputs) :
  calm w → 0 < n1 ≤ length priv → 0 < n2 ≤ length pub →
  let set := mender_storage_set_authentication_keys priv n1 pub n2 in
  let get := mender_storage_get_authentication_keys out in
  result set w = MENDER_OK ∧
  fst (result get (after set w)) = MENDER_OK ∧
  private_key_length (snd (result get (after set w))) = n1 ∧
  public_key_length (snd (result get (after set w))) = n2 ∧
  buffer_of (after get (after set w))
    (private_key (snd (result get (after set w)))) (take n1 priv) ∧
  buffer_of (after get (after set w))
    (public_key (snd (result get (after set w)))) (take n2 pub).
Proof.
  intros Hcalm [Hn1 Hl1] [Hn2 Hl2] set get. subst set get.
  destruct w as [fs h s g]. unfold calm in Hcalm. simpl in Hcalm.
  assert (mender_storage_set_authentication_keys priv n1 pub n2 (World fs h s g)
          = (MENDER_OK,
             World (<[MENDER_STORAGE_NVS_PUBLIC_KEY := take n2 pub]>
                      (<[MENDER_STORAGE_NVS_PRIVATE_KEY := take n1 priv]> fs))
               h (tl (tl (tl (tl s)))) g)) as Hset.
  { rewrite set_authentication_keys_run. cbv zeta. unfold result, after.
    rewrite write_file_done by done. cbn [fst snd].
    by rewrite write_file_done by (auto using calm_tl). }
  unfold result, after. rewrite Hset. cbn [fst snd].
  split; [done|].
  unfold mender_storage_get_authentication_keys.
  assert (take n1 priv ≠ []) as Hne1.
  { intros Hnil. apply (f_equal length) in Hnil.
    rewrite length_take in Hnil. simpl in Hnil. lia. }
  assert (take n2 pub ≠ []) as Hne2.
  { intros Hnil. apply (f_equal length) in Hnil.
    rewrite length_take in Hnil. simpl in Hnil. lia. }
  step_by ltac:(apply read_file_done;
                [ rewrite lookup_insert_ne by (apply not_eq_sym, key_items_differ);
                  apply lookup_insert_eq
                | done | auto using calm_tl ]).
  step_by ltac:(apply read_file_done;
                [ apply lookup_insert_eq | done | auto 7 using calm_tl ]).
  unfold ret.
  cbn [fst snd private_key private_key_length public_key public_key_length].
  rewrite !length_take.
  split; [done|]. split; [lia|]. split; [lia|]. split.
  - apply buffer_of_block. cbn [w_heap].
    rewrite lookup_insert_ne by apply fresh_blocks_differ.
    apply lookup_insert_eq.
  - apply buffer_of_block. cbn [w_heap]. apply lookup_insert_eq.
Qed.

(** Two keys of four bytes, in the blank world. *)
Lemma set_then_get_authentication_keys_witness :
  let set := mender_storage_set_authentication_keys sample_state 4 zero_state 4 in
  let get := mender_storage_get_authentication_keys (KeyOutputs NULL 0 NULL 0) in
  result set blank = MENDER_OK ∧
  fst (result get (after set blank)) = MENDER_OK ∧
  private_key_length (snd (result get (after set blank))) = 4 ∧
  public_key_length (snd (result get (after set blank))) = 4 ∧
  buffer_of (after get (after set blank))
    (private_key (snd (result get (after set blank)))) (take 4 sample_state) ∧
  buffer_of (after get (after set blank))
    (public_key (snd (result get (after set blank)))) (take 4 zero_state).
Proof.
  apply (set_then_get_authentication_keys sample_state 4 zero_state 4 blank
           (KeyOutputs NULL 0 NULL 0)).
  - constructor.
  - simpl. lia.
  - simpl. lia.
Defined.

(** ** Deleting items *)

Lemma delete_item_run path fs h s g :
  (let* r := unlink path in
   if negb (r =? 0)%Z then ret MENDER_FAIL else ret MENDER_OK) (World fs h s g) =
    match hd Done s, fs !! path with
    | Done, Some _ => (MENDER_OK, World (delete path fs) h (tl s) g)
    | _, _ => (MENDER_FAIL, World fs h (tl s) g)
    end.
Proof.
  unfold bind. rewrite unlink_run.
  destruct (hd Done s); [destruct (fs !! path)|]; done.
Qed.

(** Deleting the deployment data when the item exists and [unlink] completes
    returns [MENDER_OK], removes that item only, and a following get returns
    [MENDER_NOT_FOUND]; deleting it when the item does not exist returns
    [MENDER_FAIL] and changes no item. *)
Theorem delete_deployment_data_then_get (w : world) (p0 : ptr) :
  let del := mender_storage_delete_deployment_data in
  (is_Some (w_files w !! MENDER_STORAGE_NVS_DEPLOYMENT_DATA) →
   hd Done (w_script w) = Done →
   result del w = MENDER_OK ∧
   w_files (after del w) = delete MENDER_STORAGE_NVS_DEPLOYMENT_DATA (w_files w) ∧
   mender_storage_get_deployment_data p0 (after del w)
     = (MENDER_NOT_FOUND, p0, after del w)) ∧
  (w_files w !! MENDER_STORAGE_NVS_DEPLOYMENT_DATA = None →
   result del w = MENDER_FAIL ∧ w_files (after del w) = w_files w).
Proof.
  intros del. subst del. destruct w as [fs h s g].
  unfold result, after, mender_storage_delete_deployment_data.
  rewrite delete_item_run. cbn [w_files w_script]. split.
  - intros [c Hc] ->. rewrite Hc. cbn [fst snd w_files].
    split; [done|]. split; [done|].
    erewrite get_deployment_data_run
      by (apply read_file_absent; apply lookup_delete_eq).
    done.
  - intros ->. by destruct (hd Done s).
Qed.

(** Deleting the update state when the item exists and [unlink] completes
    returns [MENDER_OK], and a following get returns [MENDER_NOT_FOUND] and
    leaves the caller's outputs untouched; deleting it when the item does not
    exist returns [MENDER_FAIL] and changes no item. *)
Theorem delete_update_state_then_get
    (sz : nat) (w : world) (st0 : list byte) (at0 : ptr) :
  let del := mender_storage_delete_update_state in
  (is_Some (w_files w !! MENDER_STORAGE_NVS_UPDATE_STATE) →
   hd Done (w_script w) = Done →
   result del w = MENDER_OK ∧
   w_files (after del w) = delete MENDER_STORAGE_NVS_UPDATE_STATE (w_files w) ∧
   mender_storage_get_update_state sz st0 at0 (after del w)
     = (MENDER_NOT_FOUND, st0, at0, after del w)) ∧
  (w_files w !! MENDER_STORAGE_NVS_UPDATE_STATE = None →
   result del w = MENDER_FAIL ∧ w_files (after del w) = w_files w).
Proof.
  intros del. subst del. destruct w as [fs h s g].
  unfold result, after, mender_storage_delete_update_state.
  rewrite delete_item_run. cbn [w_files w_script]. split.
  - intros [c Hc] ->. rewrite Hc. cbn [fst snd w_files].
    split; [done|]. split; [done|].
    apply get_update_state_absent. apply lookup_delete_eq.
  - intros ->. by destruct (hd Done s).
Qed.

(** Whether [unlink] removes an item: the platform completes the call and
    the item exists. *)
Lemma delete_authentication_keys_run fs h s g :
  mender_storage_delete_authentication_keys (World fs h s g) =
    match hd Done s, fs !! MENDER_STORAGE_NVS_PRIVATE_KEY with
    | Done, Some _ =>
        match hd Done (tl s), fs !! MENDER_STORAGE_NVS_PUBLIC_KEY with
        | Done, Some _ =>
            (MENDER_OK,
             World (delete MENDER_STORAGE_NVS_PUBLIC_KEY
                      (delete MENDER_STORAGE_NVS_PRIVATE_KEY fs))
               h (tl (tl s)) g)
        | _, _ =>
            (MENDER_FAIL,
             World (delete MENDER_STORAGE_NVS_PRIVATE_KEY fs) h (tl (tl s)) g)
        end
    | _, _ => (MENDER_FAIL, World fs h (tl s) g)
    end.
Proof.
  unfold mender_storage_delete_authentication_keys, bind at 1.
  rewrite unlink_run.
  destruct (hd Done s);
    [destruct (fs !! MENDER_STORAGE_NVS_PRIVATE_KEY) eqn:Hpriv|]; try done.
  change (negb (0 =? 0)%Z) with false. cbv iota. unfold bind.
  rewrite unlink_run.
  rewrite lookup_delete_ne by apply key_items_differ.
  destruct (hd Done (tl s));
    [destruct (fs !! MENDER_STORAGE_NVS_PUBLIC_KEY)|]; done.
Qed.

(** Deleting the authentication keys stops at the first [unlink] that fails.
    When the private key cannot be removed, the call returns [MENDER_FAIL]
    and no item changes, the public key is not tried.  When the private key
    is removed and the public key cannot be, the call returns [MENDER_FAIL]
    and the private key stays removed.  When both are removed the call
    returns [MENDER_OK] and a following get returns [MENDER_NOT_FOUND]. *)
Theorem delete_authentication_keys_outcomes (w : world) (out : key_outputs) :
  let del := mender_storage_delete_authentication_keys in
  let gone1 := w_files w !! MENDER_STORAGE_NVS_PRIVATE_KEY = None ∨
               hd Done (w_script w) ≠ Done in
  let gone2 := w_files w !! MENDER_STORAGE_NVS_PUBLIC_KEY = None ∨
               hd Done (tl (w_script w)) ≠ Done in
  (gone1 → result del w = MENDER_FAIL ∧ w_files (after del w) = w_files w) ∧
  (¬ gone1 → gone2 →
   result del w = MENDER_FAIL ∧
   w_files (after del w) = delete MENDER_STORAGE_NVS_PRIVATE_KEY (w_files w)) ∧
  (¬ gone1 → ¬ gone2 →
   result del w = MENDER_OK ∧
   w_files (after del w) !! MENDER_STORAGE_NVS_PRIVATE_KEY = None ∧
   w_files (after del w) !! MENDER_STORAGE_NVS_PUBLIC_KEY = None ∧
   fst (result (mender_storage_get_authentication_keys out) (after del w))
     = MENDER_NOT_FOUND).
Proof.
  intros del gone1 gone2. subst del gone1 gone2. destruct w as [fs h s g].
  unfold result, after. rewrite delete_authentication_keys_run.
  cbn [w_files w_script].
  destruct (hd Done s) eqn:Hs1;
    [destruct (fs !! MENDER_STORAGE_NVS_PRIVATE_KEY) eqn:Hpriv|].
  2,3: (split; [done|]; split; intros []; auto; done).
  destruct (hd Done (tl s)) eqn:Hs2;
    [destruct (fs !! MENDER_STORAGE_NVS_PUBLIC_KEY) eqn:Hpub|].
  2,3: (split; [by intros [|]|]; split; [done|]; intros _ []; auto; done).
  split; [by intros [|]|]. split; [by intros _ [|]|]. intros _ _.
  cbn [fst snd w_files]. split; [done|].
  split; [by rewrite lookup_delete_ne, lookup_delete_eq
            by (apply not_eq_sym, key_items_differ)|].
  split; [apply lookup_delete_eq|].
  unfold mender_storage_get_authentication_keys.
  erewrite bind_run.
  2:{ apply read_file_absent. cbn [w_files].
      by rewrite lookup_delete_ne, lookup_delete_eq
        by (apply not_eq_sym, key_items_differ). }
  done.
Qed.

(** ** What the getters leave untouched *)

Lemma get_update_state_frame sz st0 at0 w :
  let get := mender_storage_get_update_state sz st0 at0 in
  w_files (after get w) = w_files w ∧
  (fst (fst (result get w)) ≠ MENDER_OK → w_heap (after get w) = w_heap w).
Proof.
  intros get. subst get. unfold result, after.
  destruct (w_files w !! MENDER_STORAGE_NVS_UPDATE_STATE) as [c|] eqn:H.
  2:{ by rewrite get_update_state_absent. }
  destruct (decide (c = [])) as [->|Hc].
  { by rewrite get_update_state_empty. }
  destruct (decide (length c < sz + 2)) as [Hlt|Hge].
  { by rewrite (get_update_state_short sz st0 at0 w c). }
  destruct w as [fs h s g]. simpl in H.
  rewrite (get_update_state_decode sz st0 at0 fs h s g c H) by lia. cbv zeta.
  destruct (_ <? 1); [done|].
  destruct (hd Done (tl s)); [|done].
  by destruct (_ <? _).
Qed.

Lemma get_authentication_keys_frame out w :
  let get := mender_storage_get_authentication_keys out in
  w_files (after get w) = w_files w ∧
  (fst (result get w) ≠ MENDER_OK → w_heap (after get w) = w_heap w).
Proof.
  intros get. subst get.
  unfold result, after, mender_storage_get_authentication_keys.
  destruct (mender_storage_read_file MENDER_STORAGE_NVS_PRIVATE_KEY
              (private_key out) (private_key_length out) w)
    as [[[r1 p1] l1] w1] eqn:H1.
  erewrite bind_run by exact H1. cbv beta iota.
  assert (r1 = MENDER_OK ∨ r1 ≠ MENDER_OK) as [->|Hr1] by (destruct r1; auto).
  2:{ assert (negb (mender_err_eqb MENDER_OK r1) = true) as ->
        by (by destruct r1).
      by destruct (read_file_not_OK _ _ _ _ _ _ _ _ H1 Hr1). }
  cbn [negb mender_err_eqb].
  apply read_file_OK in H1 as (c & _ & _ & -> & -> & Hheap1 & Hfiles1).
  destruct (mender_storage_read_file MENDER_STORAGE_NVS_PUBLIC_KEY
              (public_key out) (public_key_length out) w1)
    as [[[r2 p2] l2] w2] eqn:H2.
  erewrite bind_run by exact H2. cbv beta iota.
  assert (r2 = MENDER_OK ∨ r2 ≠ MENDER_OK) as [->|Hr2] by (destruct r2; auto).
  - cbn [negb mender_err_eqb]. unfold ret. cbn [fst snd].
    apply read_file_OK in H2 as (c2 & _ & _ & _ & _ & _ & Hfiles2).
    split; [congruence | done].
  - destruct (read_file_not_OK _ _ _ _ _ _ _ _ H2 Hr2) as [Hheap2 Hfiles2].
    destruct r2; [done|..]; cbn [negb]; cbv iota;
      (mstep; unfold ret; cbn [fst snd w_files w_heap];
       split; [congruence|]; intros _;
       rewrite Hheap2, Hheap1; apply delete_insert_id, fresh_block_free).
Qed.

Lemma get_provides_frame {kvl : Type}
    (parse : list byte → kvl → mender_err_t * kvl) prov w :
  let get := mender_storage_get_provides kvl parse prov in
  w_files (after get w) = w_files w ∧ w_heap (after get w) = w_heap w.
Proof.
  intros get. subst get. unfold result, after, mender_storage_get_provides.
  cbv zeta.
  destruct (mender_storage_read_file MENDER_STORAGE_NVS_PROVIDES NULL 0 w)
    as [[[r p] len] w1] eqn:H1.
  erewrite bind_run by exact H1. cbv beta iota.
  assert (r = MENDER_OK ∨ r ≠ MENDER_OK) as [->|Hr] by (destruct r; auto).
  2:{ destruct (read_file_not_OK _ _ _ _ _ _ _ _ H1 Hr).
      by destruct r. }
  cbn [negb mender_err_eqb].
  apply read_file_OK in H1 as (c & _ & _ & -> & -> & Hheap & Hfiles).
  mstep. destruct (parse _ prov) as [r q].
  destruct r; cbn [negb]; cbv iota;
    (mstep; unfold ret; cbn [fst snd w_files w_heap];
     split; [done|]; rewrite Hheap; apply delete_insert_id, fresh_block_free).
Qed.

Lemma read_file_frame path d n w :
  let read := mender_storage_read_file path d n in
  w_files (after read w) = w_files w ∧
  (fst (fst (result read w)) ≠ MENDER_OK → w_heap (after read w) = w_heap w).
Proof.
  intros read. subst read. unfold result, after.
  destruct (mender_storage_read_file path d n w) as [[[r p] len] w'] eqn:H.
  cbn [fst snd].
  assert (r = MENDER_OK ∨ r ≠ MENDER_OK) as [->|Hr] by (destruct r; auto).
  - by apply read_file_OK in H as (c & _ & _ & _ & _ & _ & ?).
  - by destruct (read_file_not_OK _ _ _ _ _ _ _ _ H Hr).
Qed.

Lemma get_deployment_data_frame p0 w :
  let get := mender_storage_get_deployment_data p0 in
  w_files (after get w) = w_files w ∧
  (fst (result get w) ≠ MENDER_OK → w_heap (after get w) = w_heap w).
Proof.
  intros get. subst get.
  pose proof (read_file_frame MENDER_STORAGE_NVS_DEPLOYMENT_DATA p0 0 w) as Hf.
  cbv zeta in Hf. unfold result, after in *.
  destruct (mender_storage_read_file _ p0 0 w) as [[[r p] len] w'] eqn:H.
  rewrite (get_deployment_data_run p0 w r p len w' H).
  cbn [fst snd] in *. destruct Hf as [Hfiles Hheap]. split; [done|].
  intros Hne. apply Hheap. by destruct r.
Qed.

Lemma get_artifact_name_frame p0 w :
  let get := mender_storage_get_artifact_name p0 in
  w_files (after get w) = w_files w ∧
  (fst (result get w) ≠ MENDER_OK → w_heap (after get w) = w_heap w).
Proof.
  intros get. subst get.
  pose proof (read_file_frame MENDER_STORAGE_NVS_ARTICACT_NAME p0 0 w) as Hf.
  cbv zeta in Hf. unfold result, after in *.
  destruct (mender_storage_read_file _ p0 0 w) as [[[r p] len] w'] eqn:H.
  rewrite (get_artifact_name_run p0 w r p len w' H).
  cbn [fst snd] in *. destruct Hf as [Hfiles Hheap].
  destruct r; cbn [fst snd]; try (split; [done|]; intros _; by apply Hheap).
  - done.
  - destruct w' as [fs h s g]. unfold strdup. cbn [w_files] in Hfiles.
    destruct (hd Done s) eqn:Hs;
      [step_by ltac:(by eapply alloc_done) | step_by ltac:(by eapply alloc_cut)];
      unfold ret; cbn [fst snd w_files];
      (split; [done|]; intros Hne; by destruct Hne).
Qed.

(** No getter ever changes an item of the storage directory, whatever it
    returns and whatever the platform does. *)
Theorem getters_leave_items (w : world) :
  (∀ out, w_files (after (mender_storage_get_authentication_keys out) w)
            = w_files w) ∧
  (∀ p0, w_files (after (mender_storage_get_deployment_data p0) w)
           = w_files w) ∧
  (∀ sz st0 at0, w_files (after (mender_storage_get_update_state sz st0 at0) w)
                   = w_files w) ∧
  (∀ p0, w_files (after (mender_storage_get_artifact_name p0) w) = w_files w) ∧
  (∀ (kvl : Type) (parse : list byte → kvl → mender_err_t * kvl) prov,
     w_files (after (mender_storage_get_provides kvl parse prov) w)
       = w_files w).
Proof.
  split; [|split; [|split; [|split]]].
  - intros out. apply get_authentication_keys_frame.
  - intros p0. apply get_deployment_data_frame.
  - intros sz st0 at0. apply get_update_state_frame.
  - intros p0. apply get_artifact_name_frame.
  - intros kvl parse prov. apply get_provides_frame.
Qed.

(** A getter that does not return [MENDER_OK] leaves the heap as it was
    before the call: every buffer it allocated has been released. *)
Theorem failed_getters_leave_heap (w : world) :
  (∀ out, let get := mender_storage_get_authentication_keys out in
          fst (result get w) ≠ MENDER_OK → w_heap (after get w) = w_heap w) ∧
  (∀ p0, let get := mender_storage_get_deployment_data p0 in
         fst (result get w) ≠ MENDER_OK → w_heap (after get w) = w_heap w) ∧
  (∀ sz st0 at0, let get := mender_storage_get_update_state sz st0 at0 in
                 fst (fst (result get w)) ≠ MENDER_OK →
                 w_heap (after get w) = w_heap w) ∧
  (∀ p0, let get := mender_storage_get_artifact_name p0 in
         fst (result get w) ≠ MENDER_OK → w_heap (after get w) = w_heap w).
Proof.
  split; [|split; [|split]].
  - intros out. apply get_authentication_keys_frame.
  - intros p0. apply get_deployment_data_frame.
  - intros sz st0 at0. apply get_update_state_frame.
  - intros p0. apply get_artifact_name_frame.
Qed.

(** A private key of four bytes without a public key, and an update-state
    record whose type cannot be allocated: the buffer of the private key is
    released, and the heap is as before both calls. *)
Lemma failed_getters_leave_heap_witness :
  let keys := with_item MENDER_STORAGE_NVS_PRIVATE_KEY sample_state blank in
  let record := set_script [Done; Cut 0]
                  (with_item MENDER_STORAGE_NVS_UPDATE_STATE
                     (sample_state ++ String.list_byte_of_string "rootfs-image")
                     blank) in
  w_heap (after (mender_storage_get_authentication_keys
                   (KeyOutputs NULL 0 NULL 0)) keys) = w_heap keys ∧
  w_heap (after (mender_storage_get_update_state 4 zero_state NULL) record)
    = w_heap record.
Proof.
  split.
  - apply (proj1 (failed_getters_leave_heap
                    (with_item MENDER_STORAGE_NVS_PRIVATE_KEY sample_state blank))
             (KeyOutputs NULL 0 NULL 0)).
    vm_compute. discriminate.
  - apply (proj1 (proj2 (proj2 (failed_getters_leave_heap
             (set_script [Done; Cut 0]
                (with_item MENDER_STORAGE_NVS_UPDATE_STATE
                   (sample_state ++ String.list_byte_of_string "rootfs-image")
                   blank)))))
             4 zero_state NULL).
    vm_compute. discriminate.
Defined.

(** ** More on the update-state record *)

(** Saving on any platform: the open may fail, the state value may be
    written short, the artifact type may be written short. *)
Lemma save_update_state_run sz state artifact_type fs h s g :
  mender_storage_save_update_state sz state artifact_type (World fs h s g) =
    match hd Done s with
    | Cut _ => (MENDER_FAIL, World fs h (tl s) g)
    | Done =>
        let b1 := take (transferred (hd Done (tl s)) sz) state in
        if length b1 =? sz then
          let b2 := take (transferred (hd Done (tl (tl s))) (strlen artifact_type))
                      artifact_type in
          (if length b2 =? strlen artifact_type then MENDER_OK else MENDER_FAIL,
           World (<[MENDER_STORAGE_NVS_UPDATE_STATE := b1 ++ b2]> fs)
             h (tl (tl (tl s))) g)
        else
          (MENDER_FAIL,
           World (<[MENDER_STORAGE_NVS_UPDATE_STATE := b1]> fs) h (tl (tl s)) g)
    end.
Proof.
  unfold mender_storage_save_update_state.
  destruct (hd Done s) eqn:Hs1.
  2:{ step_by ltac:(by eapply fopen_wb_cut). reflexivity. }
  step_by ltac:(by eapply fopen_wb_done).
  rewrite (bind_run _ _ _ _ _ (fwrite_run _ _ _ _ _ _ _ _)). tidy.
  rewrite lookup_insert_eq, insert_insert_eq. tidy.
  rewrite Nat.mul_1_l, Nat.div_1_r, app_nil_l.
  destruct (_ =? sz); tidy.
  2:{ mstep. reflexivity. }
  rewrite (bind_run _ _ _ _ _ (fwrite_run _ _ _ _ _ _ _ _)). tidy.
  rewrite lookup_insert_eq, insert_insert_eq. tidy.
  rewrite Nat.mul_1_l, Nat.div_1_r.
  destruct (_ =? strlen artifact_type); tidy; mstep; reflexivity.
Qed.

(** On a platform that completes every call, every record of at least two
    bytes more than a state value is decoded, whoever wrote it: the state
    value is its first [sz] bytes and the buffer handed out holds the rest of
    the record and a NUL. *)
Theorem get_update_state_decodes_record
    (sz : nat) (w : world) (c st0 : list byte) (at0 : ptr) :
  0 < sz → length st0 = sz → calm w →
  w_files w !! MENDER_STORAGE_NVS_UPDATE_STATE = Some c →
  sz + 2 ≤ length c →
  let get := mender_storage_get_update_state sz st0 at0 in
  fst (fst (result get w)) = MENDER_OK ∧
  snd (fst (result get w)) = take sz c ∧
  buffer_of (after get w) (snd (result get w)) (drop sz c).
Proof.
  intros Hsz Hst0 Hcalm Hc Hlen get. subst get.
  destruct w as [fs h s g]. unfold calm in Hcalm. simpl in Hcalm, Hc.
  unfold result, after.
  rewrite (get_update_state_calm sz (take sz c) (drop sz c) st0 at0 fs h s g);
    try done.
  - cbn [fst snd]. split; [done|]. split; [done|].
    apply buffer_of_block. apply lookup_insert_eq.
  - rewrite length_take. lia.
  - rewrite length_drop. lia.
  - by rewrite take_drop.
Qed.

(** A record of a state value and three more bytes, the second of them NUL. *)
Lemma get_update_state_decodes_record_witness :
  let c := sample_state ++ [Byte.x61; Byte.x00; Byte.x62] in
  let w := with_item MENDER_STORAGE_NVS_UPDATE_STATE c blank in
  let get := mender_storage_get_update_state 4 zero_state NULL in
  fst (fst (result get w)) = MENDER_OK ∧
  snd (fst (result get w)) = take 4 c ∧
  buffer_of (after get w) (snd (result get w)) (drop 4 c).
Proof.
  apply (get_update_state_decodes_record 4
           (with_item MENDER_STORAGE_NVS_UPDATE_STATE
              (sample_state ++ [Byte.x61; Byte.x00; Byte.x62]) blank)
           (sample_state ++ [Byte.x61; Byte.x00; Byte.x62]) zero_state NULL).
  - lia.
  - reflexivity.
  - constructor.
  - vm_compute. reflexivity.
  - simpl. lia.
Defined.

(** A save whose write of the artifact type stops after [k] characters, with
    [k] at least two, returns [MENDER_FAIL] and leaves a record that a later
    get on a platform that completes every call accepts: the get returns
    [MENDER_OK] with the saved state value and the first [k] characters of
    the type. *)
Theorem torn_save_is_read_back
    (sz : nat) (w : world) (state artifact_type st0 : list byte) (at0 : ptr)
    (k : nat) (rest : list outcome) :
  0 < sz → length state = sz → length st0 = sz →
  2 ≤ k < strlen artifact_type →
  w_script w = Done :: Done :: Cut k :: rest → Forall (eq Done) rest →
  let save := mender_storage_save_update_state sz state artifact_type in
  let get := mender_storage_get_update_state sz st0 at0 in
  result save w = MENDER_FAIL ∧
  fst (fst (result get (after save w))) = MENDER_OK ∧
  snd (fst (result get (after save w))) = state ∧
  buffer_of (after get (after save w)) (snd (result get (after save w)))
    (take k (c_chars artifact_type)).
Proof.
  intros Hsz Hstate Hst0 [Hk1 Hk2] Hscript Hrest save get. subst save get.
  destruct w as [fs h s g]. simpl in Hscript. subst s.
  unfold result, after. rewrite save_update_state_run.
  cbn [hd tl transferred]. cbv zeta.
  rewrite take_ge by lia. rewrite Hstate, Nat.eqb_refl.
  rewrite Nat.min_l by lia.
  assert (length (take k artifact_type) = k) as Hlen
    by (rewrite length_take; pose proof (strlen_le artifact_type); lia).
  rewrite Hlen, (proj2 (Nat.eqb_neq _ _)) by lia. cbn [fst snd].
  split; [done|].
  assert (take k artifact_type = take k (c_chars artifact_type)) as Htake
    by (unfold c_chars; rewrite take_take, Nat.min_l by lia; done).
  rewrite (get_update_state_calm sz state (take k artifact_type) st0 at0);
    try done.
  - cbn [fst snd]. split; [done|]. split; [done|]. rewrite <- Htake.
    apply buffer_of_block. apply lookup_insert_eq.
  - lia.
  - apply lookup_insert_eq.
Qed.

(** The write of the type "rootfs-image" stops after six characters. *)
Lemma torn_save_is_read_back_witness :
  let w := set_script [Done; Done; Cut 6] blank in
  let save :=
    mender_storage_save_update_state 4 sample_state (c_literal "rootfs-image") in
  let get := mender_storage_get_update_state 4 zero_state NULL in
  result save w = MENDER_FAIL ∧
  fst (fst (result get (after save w))) = MENDER_OK ∧
  snd (fst (result get (after save w))) = sample_state ∧
  buffer_of (after get (after save w)) (snd (result get (after save w)))
    (take 6 (c_chars (c_literal "rootfs-image"))).
Proof.
  apply (torn_save_is_read_back 4 (set_script [Done; Done; Cut 6] blank)
           sample_state (c_literal "rootfs-image") zero_state NULL 6 []).
  - lia.
  - reflexivity.
  - reflexivity.
  - vm_compute. lia.
  - reflexivity.
  - constructor.
Defined.


(** ** What the setters leave untouched *)

Lemma set_authentication_keys_after priv n1 pub n2 w :
  let write1 := mender_storage_write_file MENDER_STORAGE_NVS_PRIVATE_KEY priv n1 in
  let write2 := mender_storage_write_file MENDER_STORAGE_NVS_PUBLIC_KEY pub n2 in
  after (mender_storage_set_authentication_keys priv n1 pub n2) w =
    match result write1 w with
    | MENDER_OK => after write2 (after write1 w)
    | _ => after write1 w
    end.
Proof.
  cbv zeta. unfold after at 1. rewrite set_authentication_keys_run. cbv zeta.
  destruct (result _ w); try done.
  by destruct (result _ (after _ w)).
Qed.

(** No setter ever touches the heap, and a setter changes no item but its
    own, whether it succeeds or fails and whatever the platform does.  When
    the write of the private key fails, the public-key item is not written
    either. *)
Theorem setters_touch_only_their_item (w : world) :
  (∀ data, let set := mender_storage_set_deployment_data data in
     w_heap (after set w) = w_heap w ∧
     ∀ other, other ≠ MENDER_STORAGE_NVS_DEPLOYMENT_DATA →
              w_files (after set w) !! other = w_files w !! other) ∧
  (∀ name, let set := mender_storage_set_artifact_name name in
     w_heap (after set w) = w_heap w ∧
     ∀ other, other ≠ MENDER_STORAGE_NVS_ARTICACT_NAME →
              w_files (after set w) !! other = w_files w !! other) ∧
  (∀ sz state artifact_type,
     let save := mender_storage_save_update_state sz state artifact_type in
     w_heap (after save w) = w_heap w ∧
     ∀ other, other ≠ MENDER_STORAGE_NVS_UPDATE_STATE →
              w_files (after save w) !! other = w_files w !! other) ∧
  (∀ priv n1 pub n2,
     let set := mender_storage_set_authentication_keys priv n1 pub n2 in
     w_heap (after set w) = w_heap w ∧
     (∀ other, other ≠ MENDER_STORAGE_NVS_PRIVATE_KEY →
               other ≠ MENDER_STORAGE_NVS_PUBLIC_KEY →
               w_files (after set w) !! other = w_files w !! other) ∧
     (result (mender_storage_write_file MENDER_STORAGE_NVS_PRIVATE_KEY priv n1) w
        ≠ MENDER_OK →
      w_files (after set w) !! MENDER_STORAGE_NVS_PUBLIC_KEY
        = w_files w !! MENDER_STORAGE_NVS_PUBLIC_KEY)).
Proof.
  split; [|split; [|split]].
  - intros data set. subst set. unfold after at 1 2.
    rewrite set_deployment_data_run. cbv zeta. cbn [snd].
    split; [apply write_file_heap|].
    intros other Hne. by apply write_file_other.
  - intros name set. subst set. unfold after at 1 2.
    rewrite set_artifact_name_run. cbv zeta. cbn [snd].
    split; [apply write_file_heap|].
    intros other Hne. by apply write_file_other.
  - intros sz state artifact_type save. subst save.
    destruct w as [fs h s g]. unfold after. rewrite save_update_state_run.
    destruct (hd Done s); [|done]. cbv zeta.
    destruct (_ =? sz); cbn [snd w_heap w_files];
      (split; [done|]; intros other Hne; by rewrite lookup_insert_ne).
  - intros priv n1 pub n2 set. subst set.
    rewrite set_authentication_keys_after. cbv zeta.
    destruct (result _ w) eqn:Hr1.
    1:{ rewrite !write_file_heap. split; [done|]. split; [|done].
        intros other Hne1 Hne2. by rewrite !write_file_other. }
    all: rewrite write_file_heap; split; [done|]; split;
      [ intros other Hne1 Hne2; by rewrite write_file_other
      | intros _; by rewrite write_file_other by apply key_items_differ ].
Qed.

(** ** More on the getters *)

(** The artifact-name getter returns [MENDER_OK] or [MENDER_FAIL], never
    [MENDER_NOT_FOUND]; it returns [MENDER_OK] whenever the item is absent or
    empty, and it fails only when a stored name cannot be read. *)
Theorem get_artifact_name_codes (w : world) (p0 : ptr) :
  let code := fst (result (mender_storage_get_artifact_name p0) w) in
  (code = MENDER_OK ∨ code = MENDER_FAIL) ∧
  (w_files w !! MENDER_STORAGE_NVS_ARTICACT_NAME = None ∨
   w_files w !! MENDER_STORAGE_NVS_ARTICACT_NAME = Some [] →
   code = MENDER_OK) ∧
  (code = MENDER_FAIL →
   ∃ c, w_files w !! MENDER_STORAGE_NVS_ARTICACT_NAME = Some c ∧ c ≠ [] ∧
        read_completes w (length c) = false).
Proof.
  intros code. subst code. unfold result.
  assert (∀ w', fst (fst ((let* q := strdup (c_literal "unknown")
                           in ret (MENDER_OK, q)) w')) = MENDER_OK) as Hdefault.
  { intros [fs h s g]. unfold strdup.
    destruct (hd Done s) eqn:Hs;
      [step_by ltac:(by eapply alloc_done) | step_by ltac:(by eapply alloc_cut)];
      done. }
  destruct (w_files w !! MENDER_STORAGE_NVS_ARTICACT_NAME) as [c|] eqn:Hc.
  2:{ rewrite (get_artifact_name_run p0 w MENDER_NOT_FOUND p0 0 w)
        by (by apply read_file_absent).
      rewrite Hdefault. split; [auto|]. split; done. }
  destruct (decide (c = [])) as [->|Hne].
  { rewrite (get_artifact_name_run p0 w MENDER_NOT_FOUND p0 0 w)
      by (by apply read_file_empty).
    rewrite Hdefault. split; [auto|]. split; done. }
  destruct w as [fs h s g]. simpl in Hc.
  destruct (mender_storage_read_file MENDER_STORAGE_NVS_ARTICACT_NAME p0 0
              (World fs h s g)) as [[[r p] len] w'] eqn:H.
  rewrite (get_artifact_name_run p0 _ r p len w' H).
  rewrite (read_file_present _ p0 0 fs h s g c Hc Hne) in H.
  unfold read_completes. cbn [w_script].
  destruct (hd Done s).
  - cbv zeta in H. case_decide as Hk; injection H as <- <- <- <-.
    + split; [auto|]. split; [by intros [|[=]]|]. done.
    + split; [auto|]. split; [by intros [|[=]]|]. intros _.
      exists c. by rewrite (proj2 (Nat.eqb_neq _ _)).
  - injection H as <- <- <- <-.
    split; [auto|]. split; [by intros [|[=]]|]. intros _. by exists c.
Qed.

(** When the private-key item is absent or empty, the key getter returns
    [MENDER_NOT_FOUND] without reading the public key: the caller's four
    outputs and the whole world, the script included, are as before. *)
Theorem get_authentication_keys_private_missing (w : world) (out : key_outputs) :
  w_files w !! MENDER_STORAGE_NVS_PRIVATE_KEY = None ∨
  w_files w !! MENDER_STORAGE_NVS_PRIVATE_KEY = Some [] →
  mender_storage_get_authentication_keys out w = (MENDER_NOT_FOUND, out, w).
Proof.
  intros H. unfold mender_storage_get_authentication_keys.
  erewrite bind_run.
  2:{ destruct H; [by apply read_file_absent | by apply read_file_empty]. }
  by destruct out.
Qed.

(** Only a public key is stored. *)
Lemma get_authentication_keys_private_missing_witness :
  let w := with_item MENDER_STORAGE_NVS_PUBLIC_KEY sample_state blank in
  mender_storage_get_authentication_keys (KeyOutputs (Ptr 7) 9 (Ptr 8) 5) w
    = (MENDER_NOT_FOUND, KeyOutputs (Ptr 7) 9 (Ptr 8) 5, w).
Proof.
  apply (get_authentication_keys_private_missing
           (with_item MENDER_STORAGE_NVS_PUBLIC_KEY sample_state blank)
           (KeyOutputs (Ptr 7) 9 (Ptr 8) 5)).
  left. vm_compute. reflexivity.
Defined.

(** ** Storing and reading the provides *)

Lemma set_provides_run {kvl : Type}
    (to_string : kvl → ptr → M (mender_err_t * ptr)) provides w b text
    fs1 h1 s1 g1 :
  to_string provides NULL w = (MENDER_OK, Ptr b, World fs1 h1 s1 g1) →
  h1 !! b = Some text →
  mender_storage_set_provides kvl to_string provides w =
    let write := mender_storage_write_file MENDER_STORAGE_NVS_PROVIDES
                   text (strlen text) in
    let w2 := after write (World fs1 h1 s1 g1) in
    (match result write (World fs1 h1 s1 g1) with
     | MENDER_OK => MENDER_OK
     | _ => MENDER_FAIL
     end,
     World (w_files w2) (delete b (w_heap w2)) (w_script w2) (w_garbage w2)).
Proof.
  intros Hcodec Hblock. unfold mender_storage_set_provides. cbv zeta.
  erewrite bind_run by exact Hcodec. cbv beta iota. cbn [negb mender_err_eqb].
  mstep. rewrite Hblock. tidy. unfold result, after, bind at 1.
  destruct (mender_storage_write_file _ text (strlen text) _) as [r w2].
  destruct r; cbn [negb mender_err_eqb fst snd]; mstep; reflexivity.
Qed.

(** When the codec hands over a block that holds the text, the provides
    setter stores the characters of that text, without the terminator, and
    releases the block whether the write succeeds or not.  When the text is
    not empty and the platform completes every call, a following get hands
    the codec that text followed by a NUL and returns what the codec
    returns. *)
Theorem set_then_get_provides {kvl : Type}
    (to_string : kvl → ptr → M (mender_err_t * ptr))
    (parse : list byte → kvl → mender_err_t * kvl)
    (provides prov : kvl) (w w1 : world) (b : positive) (text : list byte) :
  to_string provides NULL w = (MENDER_OK, Ptr b, w1) →
  w_heap w1 !! b = Some text →
  let set := mender_storage_set_provides kvl to_string provides in
  let get := mender_storage_get_provides kvl parse prov in
  w_heap (after set w) = delete b (w_heap w1) ∧
  (result set w = MENDER_OK →
   w_files (after set w) !! MENDER_STORAGE_NVS_PROVIDES = Some (c_chars text)) ∧
  (calm w1 → 1 ≤ strlen text →
   fst (parse (c_chars text ++ [NUL]) prov) = MENDER_OK →
   result set w = MENDER_OK ∧
   result get (after set w) = parse (c_chars text ++ [NUL]) prov).
Proof.
  intros Hcodec Hblock set get. subst set get.
  destruct w1 as [fs1 h1 s1 g1]. cbn [w_heap] in Hblock.
  unfold result at 1 2 3, after at 1 2 3.
  rewrite (set_provides_run to_string provides w b text fs1 h1 s1 g1 Hcodec Hblock).
  cbv zeta. cbn [fst snd w_heap w_files].
  split; [by rewrite write_file_heap|]. split.
  - intros Hok.
    destruct (result (mender_storage_write_file MENDER_STORAGE_NVS_PROVIDES
                        text (strlen text)) (World fs1 h1 s1 g1)) eqn:Hr;
      try done.
    destruct (write_file_OK _ _ _ _ Hr) as [-> _]. apply lookup_insert_eq.
  - intros Hcalm Hlen Hparse. unfold calm in Hcalm. cbn [w_script] in Hcalm.
    unfold result, after.
    rewrite write_file_done by (auto using strlen_le). cbn [fst snd].
    split; [done|]. cbn [w_files w_heap w_script w_garbage].
    fold (c_chars text).
    unfold mender_storage_get_provides. cbv zeta.
    step_by ltac:(apply read_file_done;
                  [ apply lookup_insert_eq | by apply c_chars_nonempty
                  | auto using calm_tl ]).
    mstep. rewrite lookup_insert_eq. tidy.
    destruct (parse (c_chars text ++ [NUL]) prov) as [r q].
    cbn [fst] in Hparse. subst r. tidy. mstep. reflexivity.
Qed.

(** A codec that copies its list, a string, into a fresh block, and one that
    hands back the text it receives. *)
Lemma set_then_get_provides_witness :
  let to_string := λ (kv : list byte) (_ : ptr),
                     let* p := strdup kv in ret (MENDER_OK, p) in
  let parse := λ (text : list byte) (_ : list byte), (MENDER_OK, text) in
  let text := c_literal "a=b" in
  let set := mender_storage_set_provides (list byte) to_string text in
  let get := mender_storage_get_provides (list byte) parse [] in
  result set blank = MENDER_OK ∧
  result get (after set blank) = (MENDER_OK, text).
Proof.
  set (to_string := λ (kv : list byte) (_ : ptr),
                      let* p := strdup kv in ret (MENDER_OK, p)).
  set (parse := λ (text : list byte) (_ : list byte), (MENDER_OK, text)).
  apply (proj2 (proj2 (set_then_get_provides to_string parse
                         (c_literal "a=b") [] blank
                         (snd (to_string (c_literal "a=b") NULL blank))
                         1%positive (c_literal "a=b") eq_refl eq_refl))).
  - constructor.
  - vm_compute. lia.
  - reflexivity.
Defined.

(** * The user-provided key of the test application *)

Lemma int_round_trip n :
  (0 ≤ n < 2 ^ 31)%Z → size_t_of_int (int_of_size_t n) = n.
Proof.
  intros Hn. unfold size_t_of_int, int_of_size_t.
  rewrite (Z.mod_small (n + 2 ^ 31)) by lia.
  rewrite Z.mod_small by lia. lia.
Qed.

(** Reading a key file that holds [c]: the allocation may fail, the read may
    stop early; the block is never released and its last byte never set. *)
Lemma get_user_provided_keys_cb_present path p0 l0 fs h s g c :
  fs !! path = Some c → (Z.of_nat (length c) < 2 ^ 31)%Z →
  get_user_provided_keys_cb (Some path) p0 l0 (World fs h s g) =
    match hd Done s with
    | Cut _ => (MENDER_FAIL, NULL, l0, World fs h (tl s) g)
    | Done =>
        let b := fresh (dom h) in
        let bytes := take (transferred (hd Done (tl s)) (length c)) c in
        let w' := World fs (<[b := overwrite bytes (replicate (length c + 1) g)]> h)
                    (tl (tl s)) g in
        if decide (length bytes = length c) then
          (MENDER_OK, Ptr b, length c + 1, w')
        else
          (MENDER_FAIL, Ptr b, l0, w')
    end.
Proof.
  intros H Hlen. unfold get_user_provided_keys_cb.
  step_by ltac:(by eapply fopen_rb_present).
  step_by ltac:(by eapply fseek_end_present).
  mstep. rewrite !Nat2Z.id. mstep. unfold malloc. tidy.
  destruct (hd Done s) eqn:Hs1.
  2:{ step_by ltac:(by eapply alloc_cut). mstep. reflexivity. }
  step_by ltac:(by eapply alloc_done).
  rewrite (bind_run _ _ _ _ _ (fread_run _ _ _ _ _ _ _)). tidy.
  rewrite H. tidy. rewrite drop_0, Nat.mul_1_l, Nat.div_1_r.
  mstep. rewrite alter_insert_eq.
  set (bytes := take _ c).
  assert (length bytes ≤ length c) as Hle
    by (unfold bytes; rewrite length_take; lia).
  rewrite int_round_trip by lia.
  case_decide as Hk.
  - rewrite Hk, Z.eqb_refl. tidy. mstep. reflexivity.
  - rewrite (proj2 (Z.eqb_neq _ _)) by lia. tidy. mstep. reflexivity.
Qed.

(** With a key path set, a key file below 2 GiB, and a platform that lets the
    read through, the callback returns [MENDER_OK], reports one byte more
    than the file holds, and hands out a buffer that holds the file's bytes
    followed by one byte the callback never wrote (whatever the allocator
    left there, not a terminator).  An empty file gives a one-byte buffer. *)
Theorem get_user_provided_keys_cb_reads_key
    (path : string) (p0 : ptr) (l0 : nat) (w : world) (c : list byte) :
  w_files w !! path = Some c → (Z.of_nat (length c) < 2 ^ 31)%Z →
  read_completes w (length c) = true →
  let call := get_user_provided_keys_cb (Some path) p0 l0 in
  ∃ b, result call w = (MENDER_OK, Ptr b, length c + 1) ∧
       w_heap w !! b = None ∧
       w_heap (after call w) !! b = Some (c ++ [w_garbage w]) ∧
       w_files (after call w) = w_files w.
Proof.
  intros H Hlen Hok call. subst call. destruct w as [fs h s g].
  unfold read_completes in Hok. cbn [w_files w_script w_heap w_garbage] in *.
  unfold result, after.
  rewrite (get_user_provided_keys_cb_present path p0 l0 fs h s g c H Hlen).
  destruct (hd Done s); [|done]. apply Nat.eqb_eq in Hok. cbv zeta.
  rewrite Hok, take_ge by done. rewrite decide_True by done.
  exists (fresh (dom h)). cbn [fst snd w_heap w_files].
  split; [done|]. split; [apply fresh_block_free|]. split; [|done].
  rewrite lookup_insert_eq. f_equal. unfold overwrite. f_equal.
  by rewrite replicate_add, drop_app_length' by (by rewrite length_replicate).
Qed.

(** A key file of four bytes, in a world that holds nothing else. *)
Lemma get_user_provided_keys_cb_reads_key_witness :
  let w := with_item "key.pem" sample_state blank in
  let call := get_user_provided_keys_cb (Some "key.pem") NULL 0 in
  ∃ b, result call w = (MENDER_OK, Ptr b, length sample_state + 1) ∧
       w_heap w !! b = None ∧
       w_heap (after call w) !! b = Some (sample_state ++ [w_garbage w]) ∧
       w_files (after call w) = w_files w.
Proof.
  apply (get_user_provided_keys_cb_reads_key "key.pem" NULL 0
           (with_item "key.pem" sample_state blank) sample_state).
  - vm_compute. reflexivity.
  - vm_compute. reflexivity.
  - reflexivity.
Defined.

(** The ways the callback does not read a key.  Without a key path it
    returns [MENDER_OK] and touches nothing.  With a path to a file that does
    not exist it returns [MENDER_FAIL] and touches nothing.  When the
    allocation fails it returns [MENDER_FAIL] and the caller's pointer is
    NULL.  When the read stops early it returns [MENDER_FAIL] and the buffer
    is not released: the caller's pointer refers to a live block of one byte
    more than the file. *)
Theorem get_user_provided_keys_cb_failures
    (path : string) (p0 : ptr) (l0 : nat) (w : world) :
  get_user_provided_keys_cb None p0 l0 w = (MENDER_OK, p0, l0, w) ∧
  (w_files w !! path = None →
   get_user_provided_keys_cb (Some path) p0 l0 w = (MENDER_FAIL, p0, l0, w)) ∧
  (∀ c, w_files w !! path = Some c → (Z.of_nat (length c) < 2 ^ 31)%Z →
        read_completes w (length c) = false →
        let call := get_user_provided_keys_cb (Some path) p0 l0 in
        fst (fst (result call w)) = MENDER_FAIL ∧
        snd (result call w) = l0 ∧
        match hd Done (w_script w) with
        | Cut _ => snd (fst (result call w)) = NULL ∧
                   w_heap (after call w) = w_heap w
        | Done => ∃ b blk, snd (fst (result call w)) = Ptr b ∧
                           w_heap w !! b = None ∧
                           w_heap (after call w) !! b = Some blk ∧
                           length blk = length c + 1
        end).
Proof.
  split; [done|]. split.
  - intros H. destruct w as [fs h s g]. simpl in H.
    unfold get_user_provided_keys_cb.
    step_by ltac:(by eapply fopen_rb_absent). reflexivity.
  - intros c H Hlen Hbreak call. subst call. destruct w as [fs h s g].
    unfold read_completes in Hbreak. cbn [w_files w_script w_heap] in *.
    unfold result, after.
    rewrite (get_user_provided_keys_cb_present path p0 l0 fs h s g c H Hlen).
    destruct (hd Done s); [|done]. apply Nat.eqb_neq in Hbreak. cbv zeta.
    set (t := transferred _ (length c)) in *.
    assert (t ≤ length c) by apply transferred_le.
    rewrite decide_False by (rewrite length_take; lia).
    cbn [fst snd w_heap]. split; [done|]. split; [done|].
    eexists _, _. split; [done|]. split; [apply fresh_block_free|].
    split; [apply lookup_insert_eq|].
    unfold overwrite.
    rewrite length_app, length_drop, length_replicate, length_take. lia.
Qed.

(** * The logger *)

Lemma strlen_clean_app a b :
  strlen a = length a → strlen (a ++ b) = length a + strlen b.
Proof.
  induction a as [|x a IH]; simpl; [done|].
  destruct (is_NUL x); [done|]. intros [= H]. by rewrite IH.
Qed.

Lemma strlen_clean_take k l :
  strlen l = length l → strlen (take k l) = length (take k l).
Proof.
  revert k. induction l as [|x l IH]; intros [|k]; simpl; try done.
  destruct (is_NUL x); [done|]. intros [= H]. by rewrite IH.
Qed.

Lemma c_chars_clean l rest :
  strlen l = length l → c_chars (l ++ NUL :: rest) = l.
Proof.
  intros H. unfold c_chars. rewrite strlen_clean_app by done.
  change (strlen (NUL :: rest)) with 0.
  by rewrite Nat.add_0_r, take_app_length.
Qed.

(** What the buffer holds as a string once the message was formatted and,
    if it did not fit, marked with dots. *)
Lemma log_buff_shown msg g :
  strlen msg = length msg →
  c_chars
    (let buf := overwrite (take (LOG_MESSAGE_MAX_SIZE_BYTES - 1) msg ++ [NUL])
                  (replicate LOG_MESSAGE_MAX_SIZE_BYTES g) in
     if (Z.of_nat LOG_MESSAGE_MAX_SIZE_BYTES <=? Z.of_nat (length msg))%Z then
       memset buf (LOG_MESSAGE_MAX_SIZE_BYTES - 4) Byte.x2e 3
     else buf)
  = shown msg.
Proof.
  intros Hclean. unfold shown. cbv zeta.
  change (LOG_MESSAGE_MAX_SIZE_BYTES - 1) with 255.
  change (LOG_MESSAGE_MAX_SIZE_BYTES - 4) with 252.
  destruct (length msg <? LOG_MESSAGE_MAX_SIZE_BYTES) eqn:Hfit.
  - apply Nat.ltb_lt in Hfit. unfold LOG_MESSAGE_MAX_SIZE_BYTES in Hfit.
    assert ((Z.of_nat LOG_MESSAGE_MAX_SIZE_BYTES <=? Z.of_nat (length msg))%Z
            = false) as -> by (apply Z.leb_gt; unfold LOG_MESSAGE_MAX_SIZE_BYTES; lia).
    rewrite take_ge by lia. unfold overwrite. rewrite <- app_assoc.
    by apply c_chars_clean.
  - apply Nat.ltb_ge in Hfit. unfold LOG_MESSAGE_MAX_SIZE_BYTES in Hfit.
    assert ((Z.of_nat LOG_MESSAGE_MAX_SIZE_BYTES <=? Z.of_nat (length msg))%Z
            = true) as -> by (apply Z.leb_le; unfold LOG_MESSAGE_MAX_SIZE_BYTES; lia).
    assert (length (take 255 msg) = 255) as Hlen
      by (rewrite length_take; lia).
    rewrite overwrite_all
      by (rewrite length_app, Hlen, length_replicate;
          unfold LOG_MESSAGE_MAX_SIZE_BYTES; simpl; lia).
    unfold memset.
    rewrite take_app_le, take_take by lia.
    rewrite drop_app_length' by (simpl; lia).
    change (252 `min` 255) with 252. change (text "...") with (replicate 3 Byte.x2e).
    rewrite app_assoc. apply c_chars_clean.
    rewrite strlen_clean_app by (by apply strlen_clean_take).
    by rewrite length_app.
Qed.

(** The logger prints a message that has no NUL in it and fits an [int]
    whole when it is shorter than 256 bytes, and else its first 252 bytes
    followed by three dots, never more than 255 bytes of it; the line starts
    with the prefix of the level, taken as a [uint8_t], and ends with a
    newline, and a level that is none of the four prints nothing; the call
    returns [MENDER_OK] in all these cases.  When the formatting fails the
    call returns [MENDER_FAIL] and prints the logger's own error with the
    code, without a newline, whatever the level. *)
Theorem mender_log_print_output
    (ERR WRN INF DBG level : Z) (filename function : list byte) (line : Z)
    (garbage : byte) :
  let print := mender_log_print ERR WRN INF DBG level filename function line in
  (∀ msg, strlen msg = length msg → (Z.of_nat (length msg) < 2 ^ 31)%Z →
     length (shown msg) ≤ 255 ∧
     print (inr msg) garbage =
       (MENDER_OK,
        if (uint8_t_of level =? ERR)%Z then
          text "error: " ++ shown msg ++ newline
        else if (uint8_t_of level =? WRN)%Z then
          text "warning: " ++ shown msg ++ newline
        else if (uint8_t_of level =? INF)%Z then
          text "info: " ++ shown msg ++ newline
        else if (uint8_t_of level =? DBG)%Z then
          text "debug [" ++ c_chars function ++ text " (" ++ decimal (int_of line)
            ++ text ")]: " ++ shown msg ++ newline
        else [])) ∧
  (∀ code, (- 2 ^ 31 ≤ code < 0)%Z →
     print (inl code) garbage =
       (MENDER_FAIL,
        text "error: logger error: log message formatting failed: "
          ++ decimal code)).
Proof.
  intros print. subst print. split.
  - intros msg Hclean Hint. split.
    + unfold shown. destruct (length msg <? _) eqn:Hfit.
      * apply Nat.ltb_lt in Hfit. unfold LOG_MESSAGE_MAX_SIZE_BYTES in Hfit. lia.
      * rewrite length_app, length_take.
        change (length (text "...")) with 3. lia.
    + unfold mender_log_print, vsnprintf.
      rewrite (proj2 (Z.ltb_lt _ _)) by done.
      rewrite (proj2 (Z.ltb_ge _ _)) by lia.
      pose proof (log_buff_shown msg garbage Hclean) as Hbuf. cbv zeta in Hbuf.
      cbv zeta. by rewrite Hbuf.
  - intros code Hcode. unfold mender_log_print, vsnprintf.
    assert (int_of code = code) as ->.
    { unfold int_of. rewrite Z.mod_small by lia. lia. }
    by rewrite (proj2 (Z.ltb_lt _ _)) by lia.
Qed.

(** An error message of 300 bytes, with the levels numbered 1 to 4 and the
    level passed as 257, which is 1 as a [uint8_t]: the line holds the
    prefix, 252 bytes of the message, three dots and a newline.  A format
    whose expansion fails with -1 prints the logger's own error. *)
Lemma mender_log_print_output_witness :
  let msg := replicate 300 Byte.x78 in
  (length (shown msg) ≤ 255 ∧
   mender_log_print 1 2 3 4 257 [NUL] [NUL] 42 (inr msg) Byte.xaa =
     (MENDER_OK,
      text "error: " ++ replicate 252 Byte.x78 ++ text "..." ++ newline)) ∧
  mender_log_print 1 2 3 4 257 [NUL] [NUL] 42 (inl (-1)%Z) Byte.xaa =
    (MENDER_FAIL,
     text "error: logger error: log message formatting failed: "
       ++ decimal (-1)).
Proof.
  split.
  - apply (proj1 (mender_log_print_output 1 2 3 4 257 [NUL] [NUL] 42 Byte.xaa)
             (replicate 300 Byte.x78)).
    + vm_compute. reflexivity.
    + vm_compute. reflexivity.
  - apply (proj2 (mender_log_print_output 1 2 3 4 257 [NUL] [NUL] 42 Byte.xaa)
             (-1)%Z).
    lia.
Defined.

(** Deleting the provides when the item exists and [unlink] completes
    returns [MENDER_OK], and a following get returns [MENDER_NOT_FOUND] and
    leaves the caller's list untouched; deleting when the item does not exist
    returns [MENDER_FAIL] and changes no item. *)
Theorem delete_provides_then_get {kvl : Type}
    (parse : list byte → kvl → mender_err_t * kvl) (prov : kvl) (w : world) :
  let del := mender_storage_delete_provides in
  (is_Some (w_files w !! MENDER_STORAGE_NVS_PROVIDES) →
   hd Done (w_script w) = Done →
   result del w = MENDER_OK ∧
   w_files (after del w) = delete MENDER_STORAGE_NVS_PROVIDES (w_files w) ∧
   mender_storage_get_provides kvl parse prov (after del w)
     = (MENDER_NOT_FOUND, prov, after del w)) ∧
  (w_files w !! MENDER_STORAGE_NVS_PROVIDES = None →
   result del w = MENDER_FAIL ∧ w_files (after del w) = w_files w).
Proof.
  intros del. subst del. destruct w as [fs h s g].
  unfold result, after, mender_storage_delete_provides.
  rewrite delete_item_run. cbn [w_files w_script]. split.
  - intros [c Hc] ->. rewrite Hc. cbn [fst snd w_files].
    split; [done|]. split; [done|].
    unfold mender_storage_get_provides. cbv zeta.
    erewrite bind_run by (apply read_file_absent; apply lookup_delete_eq).
    done.
  - intros ->. by destruct (hd Done s).
Qed.
